(** * WalletIntegeration: the wallet-connection component of [src/App.jsx]

    A shallow embedding of the React component [App] and of its helper
    [formatNumber].  The component keeps eight pieces of state (the
    [useState] cells) and changes them only through their setters, from
    four asynchronous operations ([initProvider], [connect],
    [switchNetwork], [loadBalance]) and two wallet event handlers
    ([onAccountsChanged], [onChainChanged]).

    An operation is embedded as the sequence of setter calls and window
    effects it performs, together with the way it ends (normal return or
    a thrown value), as a function of the answers of the environment: the
    injected wallet [window.ethereum], the [ethers] library and the user.
    The balance effect, whose point is the interleaving of several
    queries, is embedded as a transition system over the page. *)

From Stdlib Require Import ZArith NArith Lia Bool Ascii String List DecimalString.
From stdpp Require Import base option list strings.
Import ListNotations.

Local Open Scope string_scope.
Local Open Scope Z_scope.
Local Open Scope list_scope.

(** ** JavaScript numbers and hexadecimal text *)

Module Js.

(** The numeric values a chain identifier can take.  [Num z] stands for
    the Number or the BigInt of mathematical value [z]: the component
    only stores and prints these values, and both print alike.  The sign
    of a zero is not kept. *)
Inductive Numeric : Type :=
  | NaN
  | Infinity (negative : bool)
  | Num (z : Z).

(** White space skipped by [parseInt] (the ASCII part of the
    ECMAScript WhiteSpace and LineTerminator classes). *)
Definition isWhiteSpace (c : ascii) : bool :=
  let n := nat_of_ascii c in
  ((9 <=? n) && (n <=? 13))%nat || (n =? 32)%nat.

Fixpoint trimStart (s : string) : string :=
  match s with
  | String c rest => if isWhiteSpace c then trimStart rest else s
  | EmptyString => s
  end.

(** [0] to [9] *)
Definition isDecimalDigit (c : ascii) : bool :=
  let n := nat_of_ascii c in ((48 <=? n) && (n <=? 57))%nat.

(** Value of a character as a digit in radix 16, either case. *)
Definition hexDigit (c : ascii) : option Z :=
  let n := Z.of_nat (nat_of_ascii c) in
  if (48 <=? n) && (n <=? 57) then Some (n - 48)
  else if (97 <=? n) && (n <=? 102) then Some (n - 87)
  else if (65 <=? n) && (n <=? 70) then Some (n - 55)
  else None.

(** The longest prefix of hexadecimal digits, read most significant
    digit first; [None] when that prefix is empty. *)
Fixpoint hexPrefix (s : string) (acc : option Z) : option Z :=
  match s with
  | String c rest =>
      match hexDigit c with
      | Some d => hexPrefix rest (Some (16 * default 0 acc + d))
      | None => acc
      end
  | EmptyString => acc
  end.

(** The Number nearest to an integer (round to nearest, ties to even, on
    a 53-bit significand; overflow to infinity from 2^1024 on). *)
Definition toNumber (z : Z) : Numeric :=
  let a := Z.abs z in
  if a <? 2 ^ 53 then Num z
  else
    let e := Z.log2 a - 52 in
    let q := Z.shiftr a e in
    let r := a - Z.shiftl q e in
    let half := Z.shiftl 1 (e - 1) in
    let q' := if (half <? r) || ((r =? half) && Z.odd q) then q + 1 else q in
    let m := Z.shiftl q' e in
    if 2 ^ 1024 <=? m then Infinity (z <? 0)
    else Num (if z <? 0 then - m else m).

Definition stripSign (s : string) : bool * string :=
  match s with
  | String "-" rest => (true, rest)
  | String "+" rest => (false, rest)
  | _ => (false, s)
  end.

Definition stripHexPrefix (s : string) : string :=
  match s with
  | String "0" (String "x" rest) => rest
  | String "0" (String "X" rest) => rest
  | _ => s
  end.

(** [parseInt(s, 16)]. *)
Definition parseInt16 (s : string) : Numeric :=
  let '(negative, body) := stripSign (trimStart s) in
  match hexPrefix (stripHexPrefix body) None with
  | None => NaN
  | Some v => toNumber (if negative then - v else v)
  end.

(** Lower-case hexadecimal digit of a value below sixteen. *)
Definition hexChar (d : N) : ascii :=
  ascii_of_N (if (d <? 10)%N then 48 + d else 87 + d)%N.

Fixpoint hexDigitsRev (fuel : nat) (n : N) : list ascii :=
  match fuel with
  | O => []
  | S fuel' =>
      if (n =? 0)%N then []
      else hexChar (n mod 16) :: hexDigitsRev fuel' (n / 16)
  end.

(** [n.toString(16)] for a non-negative integer. *)
Definition toString16 (n : N) : string :=
  if (n =? 0)%N then "0"
  else string_of_list_ascii (rev (hexDigitsRev (N.to_nat (N.size n)) n)).

End Js.

(** ** Thrown values and the result of an external call *)

(** What a [catch] clause can receive.  [ThrownValue code message text]
    is any value other than [undefined] and [null]: [code] is its
    property of that name when it is a number, [message] its property of
    that name when present, [text] is what [String(err)] gives. *)
Inductive Thrown : Type :=
  | ThrownUndefined
  | ThrownNull
  | ThrownValue (code : option Z) (message : option string) (text : string).

Inductive Result (A : Type) : Type :=
  | Ok (a : A)
  | Err (e : Thrown).
Arguments Ok {A} a.
Arguments Err {A} e.

Definition stringOf (e : Thrown) : string :=
  match e with
  | ThrownUndefined => "undefined"
  | ThrownNull => "null"
  | ThrownValue _ _ text => text
  end.

Definition codeOf (e : Thrown) : option Z :=
  match e with
  | ThrownValue code _ _ => code
  | _ => None
  end.

Definition messageOf (e : Thrown) : option string :=
  match e with
  | ThrownValue _ message _ => message
  | _ => None
  end.

(** [err?.message || String(err)]: the message when there is one and it
    is not empty (an empty text is falsy). *)
Definition describeSafe (e : Thrown) : string :=
  match messageOf e with
  | Some (String c rest) => String c rest
  | _ => stringOf e
  end.

Definition typeError : Thrown :=
  ThrownValue None (Some "Cannot read properties of undefined (reading 'message')")
    "TypeError: Cannot read properties of undefined (reading 'message')".

(** [err.message || String(err)]: reading a property of [undefined] or
    [null] throws a TypeError. *)
Definition describe (e : Thrown) : Result string :=
  match e with
  | ThrownValue _ _ _ => Ok (describeSafe e)
  | _ => Err typeError
  end.

(** ** Session: the state cells of the component *)

(** An opaque reference (a provider or a signer object), known by its
    identity only. *)
Definition Handle : Type := nat.

#[export] Instance handle_eq_dec : EqDecision Handle := Nat.eq_dec.

Record Session : Type := mkSession {
  provider : option Handle;
  signer : option Handle;
  address : option string;
  balance : option string;
  chainId : option Js.Numeric;
  chainHex : option string;
  error : option string;
  connecting : bool
}.

(** The session of a freshly loaded page ([useState] initial values). *)
Definition initialSession : Session :=
  mkSession None None None None None None None false.

(** What an operation does to the outside of its own frame: a call of
    one of the eight setters, or a window effect. *)
Inductive Action : Type :=
  | SetProvider (v : option Handle)
  | SetSigner (v : option Handle)
  | SetAddress (v : option string)
  | SetBalance (v : option string)
  | SetChainId (v : option Js.Numeric)
  | SetChainHex (v : option string)
  | SetError (v : option string)
  | SetConnecting (v : bool)
  | Confirm (question : string)
  | WindowOpen (url target : string).

Definition perform (s : Session) (a : Action) : Session :=
  match a with
  | SetProvider v =>
      mkSession v (signer s) (address s) (balance s) (chainId s) (chainHex s) (error s) (connecting s)
  | SetSigner v =>
      mkSession (provider s) v (address s) (balance s) (chainId s) (chainHex s) (error s) (connecting s)
  | SetAddress v =>
      mkSession (provider s) (signer s) v (balance s) (chainId s) (chainHex s) (error s) (connecting s)
  | SetBalance v =>
      mkSession (provider s) (signer s) (address s) v (chainId s) (chainHex s) (error s) (connecting s)
  | SetChainId v =>
      mkSession (provider s) (signer s) (address s) (balance s) v (chainHex s) (error s) (connecting s)
  | SetChainHex v =>
      mkSession (provider s) (signer s) (address s) (balance s) (chainId s) v (error s) (connecting s)
  | SetError v =>
      mkSession (provider s) (signer s) (address s) (balance s) (chainId s) (chainHex s) v (connecting s)
  | SetConnecting v =>
      mkSession (provider s) (signer s) (address s) (balance s) (chainId s) (chainHex s) (error s) v
  | Confirm _ | WindowOpen _ _ => s
  end.

Definition performAll (trace : list Action) (s : Session) : Session :=
  fold_left perform trace s.

(** The setters of the two chain cells. *)
Definition setsChain (a : Action) : bool :=
  match a with SetChainId _ | SetChainHex _ => true | _ => false end.

(** ** Operations as traced computations *)

(** A run of (a part of) an operation: the actions performed, in order,
    and its end, a value or a thrown value. *)
Definition Run (A : Type) : Type := list Action * Result A.

#[export] Instance run_ret : MRet Run := fun A a => ([], Ok a).

#[export] Instance run_bind : MBind Run := fun A B k m =>
  match m with
  | (t, Ok a) => let '(t', r) := k a in (t ++ t', r)
  | (t, Err e) => (t, Err e)
  end.

(** One action. *)
Definition act (a : Action) : Run unit := ([a], Ok tt).

(** The outcome of an external call (awaited where it is a promise). *)
Definition call {A} (r : Result A) : Run A := ([], r).

(** [try { body } catch (err) { handler err }] *)
Definition tryCatch {A} (body : Run A) (handler : Thrown -> Run A) : Run A :=
  match body with
  | (t, Ok a) => (t, Ok a)
  | (t, Err e) => let '(t', r) := handler e in (t ++ t', r)
  end.

(** [try { body } finally { final }] *)
Definition tryFinally {A} (body : Run A) (final : Run unit) : Run A :=
  let '(t, r) := body in
  let '(t', r') := final in
  (t ++ t', match r' with Ok _ => r | Err e => Err e end).

Definition trace {A} (m : Run A) : list Action := fst m.
Definition outcome {A} (m : Run A) : Result A := snd m.

(** The session once every setter call of the run has taken effect. *)
Definition after {A} (m : Run A) (s : Session) : Session :=
  performAll (trace m) s.

(** ** The environment of one invocation *)

(** Parameters of [wallet_addEthereumChain], as listed in the comment
    above [switchNetwork]. *)
Record AddChainParams : Type := mkAddChainParams {
  acChainId : string;
  acChainName : string;
  acNativeCurrency : string * string * Z;
  acRpcUrls : list string;
  acBlockExplorerUrls : list string
}.

(** The answers the environment gives during one invocation of an
    operation.  Each field is one external call of the source; every
    operation makes each of these calls at most once. *)
Record World : Type := mkWorld {
  (** [typeof window.ethereum !== "undefined"] *)
  hasEthereum : bool;
  (** the user's answer to [confirm(...)] *)
  confirmAnswer : bool;
  (** [window.ethereum.request({ method: "eth_requestAccounts" })];
      [None] is a reply that is [null] or [undefined] *)
  requestAccounts : Result (option (list string));
  (** [new ethers.BrowserProvider(window.ethereum)] *)
  newBrowserProvider : Result Handle;
  (** [p.getSigner()], used without [await]: the object it returns *)
  getSigner : Handle -> Handle;
  (** [p.getNetwork()], reduced to its [chainId] *)
  getNetwork : Result N;
  (** [p.listAccounts()]: the entries as they are handed to
      [ethers.getAddress] *)
  listAccounts : Result (list string);
  (** [ethers.getAddress(a)] *)
  getAddress : string -> Result string;
  (** [request({ method: "wallet_switchEthereumChain", ... })] *)
  switchEthereumChain : string -> Result unit;
  (** [request({ method: "wallet_addEthereumChain", ... })] *)
  addEthereumChain : AddChainParams -> Result unit
}.

(** ["0x" + n.toString(16)] *)
Definition hexOfChain (n : N) : string := String.append "0x" (Js.toString16 n).

Section Operations.

Variable w : World.

(** [initProvider] (lines 32-54) *)
Definition initProvider : Run unit :=
  if negb (hasEthereum w) then
    act (SetError (Some "No injected wallet found (install MetaMask).")) ;;
    act (SetProvider None) ;;
    act (SetSigner None)
  else
    tryCatch
      (p ← call (newBrowserProvider w);
       act (SetProvider (Some p)) ;;
       network ← call (getNetwork w);
       act (SetChainId (Some (Js.Num (Z.of_N network)))) ;;
       act (SetChainHex (Some (hexOfChain network))) ;;
       accounts ← call (listAccounts w);
       match accounts with
       | first :: _ =>
           act (SetSigner (Some (getSigner w p))) ;;
           a ← call (getAddress w first);
           act (SetAddress (Some a))
       | [] => mret tt
       end)
      (fun err =>
         msg ← call (describe err);
         act (SetError (Some msg))).

(** [onAccountsChanged] (lines 60-71).  The constructor call and
    [ethers.getAddress] are not inside any [try]. *)
Definition onAccountsChanged (accs : option (list string)) : Run unit :=
  match accs with
  | Some (first :: _) =>
      a ← call (getAddress w first);
      act (SetAddress (Some a)) ;;
      p ← call (newBrowserProvider w);
      act (SetSigner (Some (getSigner w p)))
  | _ =>
      act (SetAddress None) ;;
      act (SetSigner None) ;;
      act (SetBalance None)
  end.

(** [onChainChanged] (lines 72-78) *)
Definition onChainChanged (hexChain : string) : Run unit :=
  act (SetChainHex (Some hexChain)) ;;
  act (SetChainId (Some (Js.parseInt16 hexChain))) ;;
  initProvider.

(** [connect] (lines 116-143).  The [return] of the branch without a
    wallet leaves the [try], so the [finally] clause still runs. *)
Definition connect : Run unit :=
  act (SetError None) ;;
  act (SetConnecting true) ;;
  tryFinally
    (tryCatch
       (if negb (hasEthereum w) then
          act (Confirm "MetaMask not found. Open download page?") ;;
          (if confirmAnswer w
           then act (WindowOpen "https://metamask.io/download/" "_blank")
           else mret tt) ;;
          act (SetConnecting false)
        else
          accounts ← call (requestAccounts w);
          match accounts with
          | Some (first :: _) =>
              p ← call (newBrowserProvider w);
              act (SetProvider (Some p)) ;;
              act (SetSigner (Some (getSigner w p))) ;;
              addr ← call (getAddress w first);
              act (SetAddress (Some addr)) ;;
              net ← call (getNetwork w);
              act (SetChainId (Some (Js.Num (Z.of_N net)))) ;;
              act (SetChainHex (Some (hexOfChain net)))
          | _ => mret tt
          end)
       (fun err => act (SetError (Some (describeSafe err)))))
    (act (SetConnecting false)).

(** [switchNetwork] (lines 148-173); [addChainParams] defaults to
    [null], here [None]. *)
Definition switchNetwork (hexChainId : string)
    (addChainParams : option AddChainParams) : Run unit :=
  if negb (hasEthereum w) then
    act (SetError (Some "No wallet available to switch network."))
  else
    tryCatch
      (call (switchEthereumChain w hexChainId))
      (fun switchError =>
         if bool_decide (codeOf switchError = Some 4902) then
           match addChainParams with
           | Some params =>
               tryCatch
                 (call (addEthereumChain w params))
                 (fun addError => act (SetError (Some (describeSafe addError))))
           | None => act (SetError (Some (describeSafe switchError)))
           end
         else act (SetError (Some (describeSafe switchError)))).

End Operations.

(** ** The balance effect (lines 93-113)

    Each run of the effect owns a variable [mounted], set to [false] by
    the cleanup that React calls before the next run, when [provider] or
    [address] differ from those of the previous render.  [loadBalance] is
    split at its [await]: the part before it, and the part that resumes
    with the result of the query.  A render and the cleanup and new run
    of the effect that it triggers make one step of the page. *)

Section BalanceEffect.

(** [ethers.formatEther] *)
Variable formatEther : N -> string.

(** One run of the effect: its [mounted] variable, and the arguments of
    the [provider.getBalance(address)] query it waits for, if any. *)
Record EffectRun : Type := mkEffectRun {
  mounted : bool;
  query : option (Handle * string)
}.

(** [loadBalance] up to its [await]: the setter calls made at once, and
    the query issued.  An absent provider, an absent address and an
    empty address are falsy. *)
Definition loadBalanceStart (s : Session) : Run (option (Handle * string)) :=
  match provider s, address s with
  | Some p, Some (String c rest) => mret (Some (p, String c rest))
  | _, _ => act (SetBalance None) ;; mret None
  end.

(** [loadBalance] from its [await] on, given the value of [mounted] at
    that time and the outcome of the query. *)
Definition loadBalanceResume (isMounted : bool) (r : Result N) : Run unit :=
  tryCatch
    (bal ← call r;
     if negb isMounted then mret tt
     else act (SetBalance (Some (formatEther bal))))
    (fun err =>
       if negb isMounted then mret tt
       else msg ← call (describe err); act (SetError (Some msg))).

(** The page: the session and every run of the balance effect so far,
    oldest first. *)
Record Page : Type := mkPage {
  session : Session;
  runs : list EffectRun
}.

Inductive Event : Type :=
  (** setter calls are committed and the component renders again *)
  | Update (actions : list Action)
  (** the query of the [i]-th run of the effect settles *)
  | Settle (i : nat) (r : Result N).

Definition deps (s : Session) : option Handle * option string :=
  (provider s, address s).

Definition unmount (r : EffectRun) : EffectRun := mkEffectRun false (query r).

Definition settled (r : EffectRun) : EffectRun := mkEffectRun (mounted r) None.

(** The effect runs: cleanup of the previous run, then [loadBalance]. *)
Definition runEffect (s : Session) (rs : list EffectRun) : Page :=
  let start := loadBalanceStart s in
  mkPage (after start s)
    (alter unmount (pred (length rs)) rs
       ++ [mkEffectRun true (match outcome start with Ok q => q | Err _ => None end)]).

Definition step (pg : Page) (ev : Event) : Page :=
  match ev with
  | Update actions =>
      let s' := performAll actions (session pg) in
      if decide (deps s' = deps (session pg))
      then mkPage s' (runs pg)
      else runEffect s' (runs pg)
  | Settle i r =>
      match runs pg !! i with
      | Some run =>
          match query run with
          | Some _ =>
              mkPage (after (loadBalanceResume (mounted run) r) (session pg))
                (<[i := settled run]> (runs pg))
          | None => pg
          end
      | None => pg
      end
  end.

Definition steps (evs : list Event) (pg : Page) : Page := fold_left step evs pg.

(** The page after its first render: the effect has run once, on an
    empty session. *)
Definition initialPage : Page := runEffect initialSession [].

Definition isSettle (ev : Event) : bool :=
  match ev with Settle _ _ => true | Update _ => false end.

Definition settlesRun (i : nat) (ev : Event) : bool :=
  match ev with Settle j _ => Nat.eqb i j | Update _ => false end.

(** The shape of the list of runs that the cleanup maintains: every run
    but the last has been unmounted, the last one is mounted, and a query
    in flight for the last run was issued for the provider and the
    address the session holds. *)
Definition wellFormed (pg : Page) : Prop :=
  exists older newest,
    runs pg = older ++ [newest] /\
    Forall (fun r => mounted r = false) older /\
    mounted newest = true /\
    (forall p a, query newest = Some (p, a) ->
       provider (session pg) = Some p /\ address (session pg) = Some a).

End BalanceEffect.

(** ** The display helper [formatNumber] (lines 243-248) *)

Module Display.

(** A number written in plain decimal notation: its value is
    [mantissa / 10 ^ scale], negated when [negative]. *)
Record Decimal : Type := mkDecimal {
  negative : bool;
  mantissa : N;
  scale : nat
}.

Inductive Parsed : Type :=
  | ParsedNaN
  | ParsedDecimal (d : Decimal).

Definition isPlainChar (c : ascii) : bool :=
  Js.isDecimalDigit c || Ascii.eqb c "." || Ascii.eqb c "+" || Ascii.eqb c "-".

(** The longest prefix of decimal digits, continuing [acc]: the value
    read, the number of digits, the rest of the text. *)
Fixpoint digitsPrefix (s : string) (acc : N) (count : nat) : N * nat * string :=
  match s with
  | String c rest =>
      if Js.isDecimalDigit c
      then digitsPrefix rest (10 * acc + (N_of_ascii c - 48))%N (S count)
      else (acc, count, s)
  | EmptyString => (acc, count, s)
  end.

(** The first half of [Number(n)], on text made of digits, dots and
    signs only, and on the empty text: whether the text is a numeric
    literal, and its exact decimal value; [None] on any other text
    (exponents, radix prefixes, white space, [Infinity]), which this
    embedding does not cover.  [Number(n)] is the double nearest to that
    value, [nearestDouble] below. *)
Definition numberOf (n : string) : option Parsed :=
  if negb (forallb isPlainChar (list_ascii_of_string n)) then None
  else
    match n with
    | EmptyString => Some (ParsedDecimal (mkDecimal false 0 0))
    | _ =>
        let '(neg, body) := Js.stripSign n in
        let '(whole, nWhole, rest) := digitsPrefix body 0 0 in
        match rest with
        | EmptyString =>
            if (nWhole =? 0)%nat then Some ParsedNaN
            else Some (ParsedDecimal (mkDecimal neg whole 0))
        | String "." rest' =>
            let '(all, nAll, rest'') := digitsPrefix rest' whole nWhole in
            match rest'' with
            | EmptyString =>
                if (nAll =? 0)%nat then Some ParsedNaN
                else Some (ParsedDecimal (mkDecimal neg all (nAll - nWhole)))
            | _ => Some ParsedNaN
            end
        | _ => Some ParsedNaN
        end
    end.

Definition decimalText (n : N) : string :=
  DecimalString.NilZero.string_of_uint (N.to_uint n).

Fixpoint zeros (k : nat) : string :=
  match k with
  | O => EmptyString
  | S k' => String "0" (zeros k')
  end.

(** A finite double: [significand * 2 ^ exponent], negated when
    [negativeSign]. *)
Record Double : Type := mkDouble {
  negativeSign : bool;
  significand : Z;
  exponent : Z
}.

(** The second half of [Number(n)]: the double nearest to a decimal
    value [p / q], all digits of the text taken into account (round to
    nearest, ties to the even significand, on 53 bits, with exponents
    from -1074 on, so that small values are subnormal or zero).  The overflow to [Infinity] from 2^1024 on is not
    cut off: such values stay finite here and, as [Infinity] is, they are
    beyond 10^21. *)
Definition nearestDouble (d : Decimal) : Double :=
  let p := Z.of_N (mantissa d) in
  let q := 10 ^ Z.of_nat (scale d) in
  if p =? 0 then mkDouble (negative d) 0 0
  else
    let k := Z.log2 p - Z.log2 q in
    let f := if q * 2 ^ Z.max 0 k <=? p * 2 ^ Z.max 0 (- k) then k else k - 1 in
    let e := Z.max (f - 52) (- 1074) in
    let num := p * 2 ^ Z.max 0 (- e) in
    let den := q * 2 ^ Z.max 0 e in
    let m := num / den in
    let r := num mod den in
    let m' := if (den <? 2 * r) || ((2 * r =? den) && Z.odd m) then m + 1 else m in
    mkDouble (negative d) m' e.

(** [x.toFixed(6)] for a double [x] below 10^21 in magnitude; [None]
    beyond, where JavaScript switches to exponent notation.  The integer
    nearest to [x * 10^6] is taken, the larger one on a tie; the sign is
    written for [x < 0], so not for a zero. *)
Definition toFixed6OfDouble (x : Double) : option string :=
  let up := 2 ^ Z.max 0 (exponent x) in
  let down := 2 ^ Z.max 0 (- exponent x) in
  if 10 ^ 21 * down <=? significand x * up then None
  else
    let n := (2 * significand x * up * 10 ^ 6 + down) / (2 * down) in
    let m := decimalText (Z.to_N n) in
    let m := String.append (zeros (7 - String.length m)) m in
    let k := String.length m in
    let sign :=
      if negativeSign x && negb (significand x =? 0) then "-" else EmptyString in
    Some (String.append sign
            (String.append (substring 0 (k - 6) m)
               (String "." (substring (k - 6) 6 m)))).

(** [Number(n).toFixed(6)] for a text [n] of decimal value [d]. *)
Definition toFixed6 (d : Decimal) : option string :=
  toFixed6OfDouble (nearestDouble d).

Fixpoint allZeros (s : string) : bool :=
  match s with
  | String c rest => Ascii.eqb c "0" && allZeros rest
  | EmptyString => true
  end.

(** [0+$] at the start of [s] *)
Definition zerosToEnd (s : string) : bool :=
  match s with
  | String "0" rest => allZeros rest
  | _ => false
  end.

(** [\.?0+$] at the start of [s] *)
Definition matchesHere (s : string) : bool :=
  match s with
  | String "." rest => zerosToEnd rest
  | _ => zerosToEnd s
  end.

(** [s.replace(/\.?0+$/, empty)]: the leftmost match is removed. *)
Fixpoint trimZeros (s : string) : string :=
  match s with
  | String c rest => if matchesHere s then EmptyString else String c (trimZeros rest)
  | EmptyString => EmptyString
  end.

(** [formatNumber(n)] for a text [n]; [None] where [numberOf] or
    [toFixed6] leave the covered fragment (a text that is not plain
    decimal, a number from 10^21 on). *)
Definition formatNumber (n : string) : option string :=
  match numberOf n with
  | None => None
  | Some ParsedNaN => Some n
  | Some (ParsedDecimal d) => trimZeros <$> toFixed6 d
  end.

(** The balance row of the status panel (line 207):
    [balance ? `${formatNumber(balance)} ETH` : "-"], the dash being a
    long dash in the source. *)
Definition balanceRow (b : option string) : option string :=
  match b with
  | Some (String c rest) =>
      (fun t => String.append t " ETH") <$> formatNumber (String c rest)
  | _ => Some "-"
  end.

End Display.

(** ** Environments used in the examples *)

Definition userRejected : Thrown :=
  ThrownValue (Some 4001) (Some "User rejected the request.")
    "Error: User rejected the request.".

Definition unrecognizedChain : Thrown :=
  ThrownValue (Some 4902) (Some "Unrecognized chain ID.")
    "Error: Unrecognized chain ID.".

Definition invalidAddress : Thrown :=
  ThrownValue None (Some "invalid address") "Error: invalid address".

(** [ethers.getAddress] on the strings of the examples: an address
    written with forty decimal digits has no letter to re-case and is its
    own checksummed form; any other string of the examples is not an
    address and is rejected. *)
Definition sampleGetAddress (a : string) : Result string :=
  match a with
  | String "0" (String "x" digits) =>
      if (String.length digits =? 40)%nat
         && forallb Js.isDecimalDigit (list_ascii_of_string digits)
      then Ok a else Err invalidAddress
  | _ => Err invalidAddress
  end.

Definition account1 : string := "0x0000000000000000000000000000000000000001".

Definition account2 : string := "0x0000000000000000000000000000000000000002".

(** A wallet on chain 1 with one account, whose user approves. *)
Definition mainnetWorld : World :=
  mkWorld true false (Ok (Some [account1])) (Ok 7%nat) S (Ok 1%N)
    (Ok [account1]) sampleGetAddress (fun _ => Ok tt) (fun _ => Ok tt).

(** A page without injected wallet; the user declines the download
    page.  The wallet calls cannot be reached. *)
Definition noWalletWorld : World :=
  mkWorld false false (Err ThrownUndefined) (Err ThrownUndefined) S
    (Err ThrownUndefined) (Err ThrownUndefined) sampleGetAddress
    (fun _ => Err ThrownUndefined) (fun _ => Err ThrownUndefined).

(** A wallet whose user rejects the connection request. *)
Definition rejectingWorld : World :=
  mkWorld true false (Err userRejected) (Ok 7%nat) S (Ok 1%N)
    (Ok []) sampleGetAddress (fun _ => Err userRejected) (fun _ => Err userRejected).

(** A wallet that does not know the requested chain. *)
Definition unknownChainWorld : World :=
  mkWorld true false (Ok (Some [account1])) (Ok 7%nat) S (Ok 1%N)
    (Ok [account1]) sampleGetAddress (fun _ => Err unrecognizedChain)
    (fun _ => Err userRejected).

(** A wallet whose reply to the authorization request carries a string
    that is not an address. *)
Definition malformedReplyWorld : World :=
  mkWorld true false (Ok (Some ["0x123"])) (Ok 7%nat) S (Ok 1%N)
    (Ok []) sampleGetAddress (fun _ => Ok tt) (fun _ => Ok tt).

(** A session connected on chain 5 that shows an earlier failure. *)
Definition staleSession : Session :=
  mkSession (Some 3%nat) (Some 4%nat) (Some account1) (Some "1.5")
    (Some (Js.Num 5)) (Some "0x5") (Some "old failure") false.

Fixpoint dropZeros (cs : list ascii) : list ascii :=
  match cs with
  | c :: rest => if Ascii.eqb c "0" then dropZeros rest else cs
  | [] => []
  end.

(** [ethers.formatEther] on an amount of wei: the whole part, a dot,
    and the eighteen decimals without their trailing zeros, of which one
    is kept when all are zero. *)
Definition sampleFormatEther (wei : N) : string :=
  let whole := Display.decimalText (wei / 10 ^ 18) in
  let frac := Display.decimalText (wei mod 10 ^ 18) in
  let frac := String.append (Display.zeros (18 - String.length frac)) frac in
  let kept := rev (dropZeros (rev (list_ascii_of_string frac))) in
  String.append whole
    (String "." (match kept with [] => "0" | _ => string_of_list_ascii kept end)).

(** Two accounts selected one after the other, on the same provider:
    the effect has run three times, and the queries of its last two runs
    are in flight. *)
Definition raceHistory : list Event :=
  [Update [SetProvider (Some 7%nat); SetAddress (Some account1)];
   Update [SetAddress (Some account2)]].

(** ** The address label [short] (lines 239-242) *)

(** [short(addr)]: the empty text for an empty [addr], and otherwise
    [addr.slice(0, 6) + "..." + addr.slice(-4)]. *)
Definition short (addr : string) : string :=
  match addr with
  | EmptyString => EmptyString
  | _ =>
      String.append (substring 0 6 addr)
        (String.append "..." (substring (String.length addr - 4) 4 addr))
  end.

(** ** Vocabulary of the properties of whole executions *)

(** The integer that [parseInt(s, 16)] reads in the text, before it is
    converted to a Number: [Js.parseInt16] is [Js.toNumber] of it, and
    [NaN] when there is none. *)
Definition mathInt16 (s : string) : option Z :=
  let '(negative, body) := Js.stripSign (Js.trimStart s) in
  match Js.hexPrefix (Js.stripHexPrefix body) None with
  | None => None
  | Some v => Some (if negative then - v else v)
  end.

(** A wallet on a chain whose identifier is beyond the integers that a
    Number holds exactly. *)
Definition farChainWorld : World :=
  mkWorld true false (Ok (Some [account1])) (Ok 7%nat) S
    (Ok 9007199254740993%N) (Ok []) sampleGetAddress
    (fun _ => Ok tt) (fun _ => Ok tt).

(** A setter call that writes a balance text (not the one that clears
    the balance). *)
Definition writesBalanceValue (a : Action) : bool :=
  match a with SetBalance (Some _) => true | _ => false end.

(** An event that is a settlement, or an update without a call that
    writes a balance text. *)
Definition keepsBalanceToEffect (ev : Event) : bool :=
  match ev with
  | Update actions => forallb (fun a => negb (writesBalanceValue a)) actions
  | Settle _ _ => true
  end.

(** [provider && address]: both cells are truthy. *)
Definition depsPresent (s : Session) : bool :=
  match provider s, address s with
  | Some _, Some (String _ _) => true
  | _, _ => false
  end.

(** The invariant behind the properties of whole executions: every
    run of the effect but the last is unmounted, a query of the last run
    was issued with provider and address present, and the balance is
    absent whenever one of them is not present. *)
Definition guarded (pg : Page) : Prop :=
  exists older newest,
    runs pg = older ++ [newest] /\
    Forall (fun r => mounted r = false) older /\
    (forall q, query newest = Some q -> depsPresent (session pg) = true) /\
    (depsPresent (session pg) = false -> balance (session pg) = None).

(** Every character of a text satisfies a test. *)
Fixpoint allChars (test : ascii -> bool) (s : string) : bool :=
  match s with
  | String c rest => test c && allChars test rest
  | EmptyString => true
  end.

Definition notDot (c : ascii) : bool := negb (Ascii.eqb c ".").

(** A wallet whose network cannot be read. *)
Definition networkDownWorld : World :=
  mkWorld true false (Ok (Some [account1])) (Ok 7%nat) S (Err userRejected)
    (Err userRejected) sampleGetAddress (fun _ => Ok tt) (fun _ => Ok tt).

(** A wallet that answers the authorization request with no account. *)
Definition emptyReplyWorld : World :=
  mkWorld true false (Ok (Some [])) (Ok 7%nat) S (Ok 1%N)
    (Ok []) sampleGetAddress (fun _ => Ok tt) (fun _ => Ok tt).

(** A wallet on chain 1 whose list of accounts cannot be read. *)
Definition accountsDownWorld : World :=
  mkWorld true false (Ok (Some [account1])) (Ok 7%nat) S (Ok 1%N)
    (Err userRejected) sampleGetAddress (fun _ => Ok tt) (fun _ => Ok tt).

(** A wallet that does not know the requested chain and accepts to add
    it. *)
Definition addableChainWorld : World :=
  mkWorld true false (Ok (Some [account1])) (Ok 7%nat) S (Ok 1%N)
    (Ok [account1]) sampleGetAddress (fun _ => Err unrecognizedChain)
    (fun _ => Ok tt).

Definition polygonParams : AddChainParams :=
  mkAddChainParams "0x89" "Polygon" ("MATIC", "MATIC", 18)
    ["https://polygon-rpc.com"] [].

(** ** The embedding on concrete inputs *)

Example parseInt16_mainnet : Js.parseInt16 "0x1" = Js.Num 1.
Proof. reflexivity. Qed.

Example parseInt16_polygon : Js.parseInt16 "0x89" = Js.Num 137.
Proof. reflexivity. Qed.

Example parseInt16_stops_at_other_characters : Js.parseInt16 " 0X1fg" = Js.Num 31.
Proof. reflexivity. Qed.

Example parseInt16_no_digit : Js.parseInt16 "0x" = Js.NaN.
Proof. reflexivity. Qed.

Example parseInt16_rounds_beyond_safe_integers :
  Js.parseInt16 "0x20000000000001" = Js.Num (2 ^ 53).
Proof. reflexivity. Qed.

Example toString16_polygon : Js.toString16 137 = "89".
Proof. reflexivity. Qed.

Example connect_approved :
  connect mainnetWorld =
  ([SetError None; SetConnecting true; SetProvider (Some 7%nat);
    SetSigner (Some 8%nat); SetAddress (Some account1);
    SetChainId (Some (Js.Num 1)); SetChainHex (Some "0x1");
    SetConnecting false], Ok tt).
Proof. reflexivity. Qed.

Example chain_changed_then_reconciled :
  trace (onChainChanged mainnetWorld "0x1") =
  [SetChainHex (Some "0x1"); SetChainId (Some (Js.Num 1));
   SetProvider (Some 7%nat); SetChainId (Some (Js.Num 1));
   SetChainHex (Some "0x1"); SetSigner (Some 8%nat);
   SetAddress (Some account1)].
Proof. reflexivity. Qed.

Example switchNetwork_adds_unknown_chain :
  let polygon :=
    mkAddChainParams "0x89" "Polygon" ("MATIC", "MATIC", 18)
      ["https://polygon-rpc.com"] [] in
  let w := mkWorld true false (Ok None) (Ok 7%nat) S (Ok 1%N) (Ok [])
             sampleGetAddress (fun _ => Err unrecognizedChain) (fun _ => Ok tt) in
  switchNetwork w "0x89" (Some polygon) = ([], Ok tt).
Proof. reflexivity. Qed.

Example formatNumber_trims : Display.formatNumber "1.50" = Some "1.5".
Proof. reflexivity. Qed.

Example formatNumber_whole : Display.formatNumber "100.0" = Some "100".
Proof. reflexivity. Qed.

Example formatNumber_six_decimals :
  Display.formatNumber "0.000000000000000001" = Some "0".
Proof. reflexivity. Qed.

Example formatNumber_not_a_number : Display.formatNumber "1.2.3" = Some "1.2.3".
Proof. reflexivity. Qed.

Example formatNumber_rounds_the_double :
  Display.formatNumber "0.1234565" = Some "0.123456".
Proof. vm_compute. reflexivity. Qed.

Example formatNumber_tie_upwards : Display.formatNumber "0.0000015" = Some "0.000002"
  /\ Display.formatNumber "2.5" = Some "2.5".
Proof. split; vm_compute; reflexivity. Qed.

Example formatNumber_nearest_double :
  Display.formatNumber "9007199254740993" = Some "9007199254740992".
Proof. vm_compute. reflexivity. Qed.

Example formatNumber_exponent_notation_not_covered :
  Display.formatNumber "999999999999999999999" = None.
Proof. vm_compute. reflexivity. Qed.

Example formatNumber_underflow :
  Display.formatNumber "-0.0000001" = Some "-0".
Proof. vm_compute. reflexivity. Qed.

Example parseInt16_is_toNumber_of_mathInt16 :
  mathInt16 "0x20000000000001" = Some 9007199254740993 /\
  Js.parseInt16 "0x20000000000001" = Js.Num 9007199254740992.
Proof. split; reflexivity. Qed.

Example chain_changed_beyond_safe_integers :
  chainHex (after (onChainChanged farChainWorld "0x1") staleSession)
    = Some "0x20000000000001" /\
  chainId (after (onChainChanged farChainWorld "0x1") staleSession)
    = Some (Js.Num 9007199254740993).
Proof. split; reflexivity. Qed.

Example short_address : short account1 = "0x0000...0001".
Proof. reflexivity. Qed.

Example short_overlaps_on_short_text : short "abc" = "abc...abc".
Proof. reflexivity. Qed.

Example short_empty : short EmptyString = EmptyString.
Proof. reflexivity. Qed.

Example sampleFormatEther_zero : sampleFormatEther 0 = "0.0".
Proof. reflexivity. Qed.

Example sampleFormatEther_fraction :
  sampleFormatEther 1500000000000000000 = "1.5".
Proof. reflexivity. Qed.

(** ** Laws of traced computations *)

Lemma trace_bind {A B} (m : Run A) (k : A -> Run B) :
  trace (m ≫= k) =
  match outcome m with
  | Ok a => trace m ++ trace (k a)
  | Err _ => trace m
  end.
Proof.
  destruct m as [t [a|e]]; unfold mbind, run_bind, trace, outcome; simpl.
  - destruct (k a); reflexivity.
  - reflexivity.
Qed.

Lemma outcome_bind {A B} (m : Run A) (k : A -> Run B) :
  outcome (m ≫= k) =
  match outcome m with
  | Ok a => outcome (k a)
  | Err e => Err e
  end.
Proof.
  destruct m as [t [a|e]]; unfold mbind, run_bind, trace, outcome; simpl.
  - destruct (k a); reflexivity.
  - reflexivity.
Qed.

Lemma trace_tryCatch {A} (body : Run A) (handler : Thrown -> Run A) :
  trace (tryCatch body handler) =
  match outcome body with
  | Ok _ => trace body
  | Err e => trace body ++ trace (handler e)
  end.
Proof.
  destruct body as [t [a|e]]; unfold tryCatch, trace, outcome; simpl.
  - reflexivity.
  - destruct (handler e); reflexivity.
Qed.

Lemma outcome_tryCatch {A} (body : Run A) (handler : Thrown -> Run A) :
  outcome (tryCatch body handler) =
  match outcome body with
  | Ok a => Ok a
  | Err e => outcome (handler e)
  end.
Proof.
  destruct body as [t [a|e]]; unfold tryCatch, trace, outcome; simpl.
  - reflexivity.
  - destruct (handler e); reflexivity.
Qed.

Lemma trace_tryFinally {A} (body : Run A) (final : Run unit) :
  trace (tryFinally body final) = trace body ++ trace final.
Proof. destruct body, final; reflexivity. Qed.

Lemma outcome_tryFinally {A} (body : Run A) (final : Run unit) :
  outcome (tryFinally body final) =
  match outcome final with
  | Ok _ => outcome body
  | Err e => Err e
  end.
Proof. destruct body, final; reflexivity. Qed.

Lemma trace_act (a : Action) : trace (act a) = [a].
Proof. reflexivity. Qed.

Lemma outcome_act (a : Action) : outcome (act a) = Ok tt.
Proof. reflexivity. Qed.

Lemma trace_call {A} (r : Result A) : trace (call r) = [].
Proof. reflexivity. Qed.

Lemma outcome_call {A} (r : Result A) : outcome (call r) = r.
Proof. reflexivity. Qed.

Lemma trace_mret {A} (a : A) : trace (mret a : Run A) = [].
Proof. reflexivity. Qed.

Lemma outcome_mret {A} (a : A) : outcome (mret a : Run A) = Ok a.
Proof. reflexivity. Qed.

Create Rewrite HintDb run.
#[export] Hint Rewrite @trace_bind @outcome_bind @trace_tryCatch @outcome_tryCatch
  @trace_tryFinally @outcome_tryFinally trace_act outcome_act
  @trace_call @outcome_call @trace_mret @outcome_mret : run.

(** Unfolds a run into its trace and outcome. *)
Ltac run_eval :=
  unfold after;
  repeat (autorewrite with run; cbn beta iota; simpl app).

(** The chain cells keep their values through actions that are not
    their setters. *)
Lemma performAll_chain_frame (t : list Action) (s : Session) :
  forallb (fun a => negb (setsChain a)) t = true ->
  chainId (performAll t s) = chainId s /\ chainHex (performAll t s) = chainHex s.
Proof.
  revert s. induction t as [|a t IH]; intros s H; simpl in *; [tauto|].
  apply andb_prop in H as [Ha Ht].
  destruct (IH (perform s a) Ht) as [-> ->].
  destruct a; simpl in *; try discriminate; auto.
Qed.

(** The error cell after a trace depends on the trace and on the error
    cell before it only. *)
Lemma performAll_error_congruence (t : list Action) (s1 s2 : Session) :
  error s1 = error s2 -> error (performAll t s1) = error (performAll t s2).
Proof.
  revert s1 s2. induction t as [|a t IH]; intros s1 s2 H; simpl; [exact H|].
  apply IH. destruct a; simpl; auto.
Qed.

(** ** Connection flow *)

(** C9. Every invocation of [connect] starts by setting [error] to
    absent, whatever the environment: the message of an earlier failure
    never survives a connection attempt, be it one that fails or one that
    finds no wallet (the final [error] does not depend on the earlier
    one, and it is absent when no wallet is found). *)
Theorem connect_clears_error_first (w : World) :
  (exists rest, trace (connect w) = SetError None :: rest) /\
  (forall s1 s2 : Session,
     error (after (connect w) s1) = error (after (connect w) s2)) /\
  (forall s : Session,
     hasEthereum w = false -> error (after (connect w) s) = None).
Proof.
  assert (Hfirst : exists rest, trace (connect w) = SetError None :: rest).
  { unfold connect. rewrite trace_bind, outcome_act, trace_act. simpl. eauto. }
  split; [exact Hfirst|]. split.
  - intros s1 s2. destruct Hfirst as [rest Hrest]. unfold after.
    rewrite Hrest. simpl. apply performAll_error_congruence. reflexivity.
  - intros s Hno. unfold connect. rewrite Hno. simpl negb. cbn iota.
    destruct (confirmAnswer w); reflexivity.
Qed.

Lemma connect_clears_error_first_witness :
  hasEthereum noWalletWorld = false /\
  error staleSession = Some "old failure" /\
  error (after (connect noWalletWorld) staleSession) = None.
Proof.
  split; [reflexivity|]. split; [reflexivity|].
  exact (proj2 (proj2 (connect_clears_error_first noWalletWorld))
           staleSession eq_refl).
Defined.

(** C1 (as the code has it). When no wallet is injected, [connect]
    returns normally and leaves the session as it was, except that
    [error] is absent and [connecting] is false: the condition is
    signalled by a confirmation dialog, not through [error]. *)
Theorem connect_no_wallet (w : World) (s : Session) :
  hasEthereum w = false ->
  outcome (connect w) = Ok tt /\
  after (connect w) s =
    mkSession (provider s) (signer s) (address s) (balance s)
      (chainId s) (chainHex s) None false /\
  Forall (fun a => match a with
                   | SetError None | SetConnecting _ | Confirm _ | WindowOpen _ _ => True
                   | _ => False
                   end) (trace (connect w)).
Proof.
  intros Hno. unfold connect. rewrite Hno. simpl negb. cbn iota.
  destruct (confirmAnswer w); repeat split; repeat constructor.
Qed.

Lemma connect_no_wallet_witness :
  hasEthereum noWalletWorld = false /\
  after (connect noWalletWorld) staleSession =
    mkSession (Some 3%nat) (Some 4%nat) (Some account1) (Some "1.5")
      (Some (Js.Num 5)) (Some "0x5") None false.
Proof.
  split; [reflexivity|].
  exact (proj1 (proj2 (connect_no_wallet noWalletWorld staleSession eq_refl))).
Defined.

(** C1 as stated does not hold: without a wallet, [connect] leaves no
    message in [error]. *)
Lemma connect_no_wallet_sets_no_message :
  hasEthereum noWalletWorld = false /\
  ~ (exists msg, error (after (connect noWalletWorld) staleSession) = Some msg).
Proof.
  split; [reflexivity|]. intros [msg H]. vm_compute in H. discriminate H.
Qed.

(** C4. When the wallet is present and the authorization request
    fails, [connect] leaves [address] and [signer] as they were and sets
    [error] to the text of the failure, [err?.message || String(err)]:
    the wallet's message whenever the thrown value carries a non-empty
    one. *)
Theorem connect_request_fails (w : World) (s : Session) (e : Thrown) :
  hasEthereum w = true ->
  requestAccounts w = Err e ->
  address (after (connect w) s) = address s /\
  signer (after (connect w) s) = signer s /\
  error (after (connect w) s) = Some (describeSafe e) /\
  (forall m, messageOf e = Some m -> m <> EmptyString ->
     error (after (connect w) s) = Some m).
Proof.
  intros Hw Hreq.
  assert (Ht : trace (connect w) =
               [SetError None; SetConnecting true;
                SetError (Some (describeSafe e)); SetConnecting false]).
  { unfold connect. rewrite Hw. simpl negb. cbn iota.
    run_eval. rewrite Hreq. run_eval. reflexivity. }
  unfold after. rewrite Ht. simpl. repeat split.
  intros m Hm Hne. unfold describeSafe. rewrite Hm.
  destruct m; [congruence|reflexivity].
Qed.

Lemma connect_request_fails_witness :
  address (after (connect rejectingWorld) staleSession) = Some account1 /\
  signer (after (connect rejectingWorld) staleSession) = Some 4%nat /\
  error (after (connect rejectingWorld) staleSession)
    = Some "User rejected the request.".
Proof.
  pose proof (connect_request_fails rejectingWorld staleSession userRejected
                eq_refl eq_refl) as (Ha & Hs & He & _).
  repeat split; assumption.
Defined.

(** C5. When the wallet answers the authorization request with a
    non-empty list and the provider is constructed, the address written
    by [connect] is the result of [ethers.getAddress] on the first
    account of the list, as returned by the wallet. *)
Theorem connect_address_checksummed (w : World) (s : Session)
    (first : string) (others : list string) (p : Handle) (checksummed : string) :
  hasEthereum w = true ->
  requestAccounts w = Ok (Some (first :: others)) ->
  newBrowserProvider w = Ok p ->
  getAddress w first = Ok checksummed ->
  address (after (connect w) s) = Some checksummed.
Proof.
  intros Hw Hreq Hp Haddr.
  unfold connect. rewrite Hw. simpl negb. cbn iota.
  run_eval. rewrite Hreq. run_eval. rewrite Hp. run_eval.
  rewrite Haddr. run_eval.
  destruct (getNetwork w) as [net|e]; reflexivity.
Qed.

Lemma connect_address_checksummed_witness :
  address (after (connect mainnetWorld) initialSession) = Some account1.
Proof.
  exact (connect_address_checksummed mainnetWorld initialSession account1 []
           7%nat account1 eq_refl eq_refl eq_refl eq_refl).
Defined.

(** [connect] never throws: whatever fails inside it is caught. *)
Lemma connect_returns (w : World) : outcome (connect w) = Ok tt.
Proof.
  unfold connect. run_eval.
  destruct (hasEthereum w); simpl negb; cbn iota; run_eval.
  - destruct (requestAccounts w) as [[[|first others]|]|e]; run_eval; try reflexivity.
    destruct (newBrowserProvider w) as [p|e]; run_eval; try reflexivity.
    destruct (getAddress w first) as [a|e]; run_eval; try reflexivity.
    destruct (getNetwork w) as [n|e]; run_eval; reflexivity.
  - destruct (confirmAnswer w); run_eval; reflexivity.
Qed.

(** ** Event handlers *)

(** C3. Whatever the session before it, the accounts-changed handler
    called with an empty list (or with no list at all) returns normally
    and leaves [address], [signer] and [balance] absent. *)
Theorem accounts_changed_empty_clears (w : World) (s : Session) :
  (let s' := after (onAccountsChanged w (Some [])) s in
   outcome (onAccountsChanged w (Some [])) = Ok tt /\
   address s' = None /\ signer s' = None /\ balance s' = None) /\
  (let s' := after (onAccountsChanged w None) s in
   address s' = None /\ signer s' = None /\ balance s' = None).
Proof. repeat split. Qed.

(** With a non-empty list, the handler lets the failure of
    [ethers.getAddress] escape, before any setter call. *)
Lemma accounts_changed_propagates (w : World) (first : string)
    (others : list string) (e : Thrown) :
  getAddress w first = Err e ->
  onAccountsChanged w (Some (first :: others)) = ([], Err e).
Proof. intros H. unfold onAccountsChanged. rewrite H. reflexivity. Qed.

(** C2 (the code at the failing input). An accounts-changed
    notification carrying a string that is not an address: the handler
    throws the error of [ethers.getAddress], without a setter call, so
    that [error] keeps its earlier value and the failure is recorded
    nowhere; [connect] catches the same failure of the same call and
    records it. *)
Theorem accounts_changed_throws :
  outcome (onAccountsChanged mainnetWorld (Some ["0x123"])) = Err invalidAddress /\
  error (after (onAccountsChanged mainnetWorld (Some ["0x123"])) staleSession)
    = Some "old failure" /\
  outcome (connect malformedReplyWorld) = Ok tt /\
  error (after (connect malformedReplyWorld) staleSession) = Some "invalid address".
Proof.
  pose proof (accounts_changed_propagates mainnetWorld "0x123" [] invalidAddress
                eq_refl) as H.
  rewrite H. repeat split.
Qed.

(** ** Network switch *)

(** [switchNetwork] performs no action other than setting [error], and
    never throws. *)
Lemma switchNetwork_only_sets_error (w : World) (hexChainId : string)
    (addChainParams : option AddChainParams) :
  outcome (switchNetwork w hexChainId addChainParams) = Ok tt /\
  (trace (switchNetwork w hexChainId addChainParams) = [] \/
   exists msg, trace (switchNetwork w hexChainId addChainParams) = [SetError (Some msg)]).
Proof.
  unfold switchNetwork.
  destruct (hasEthereum w); simpl negb; cbn iota; [|split; [reflexivity|eauto]].
  run_eval.
  destruct (switchEthereumChain w hexChainId) as [[]|e]; [split; [reflexivity|auto]|].
  destruct (bool_decide (codeOf e = Some 4902)); [|split; [reflexivity|eauto]].
  destruct addChainParams as [params|]; [|split; [reflexivity|eauto]].
  run_eval.
  destruct (addEthereumChain w params) as [[]|e']; split; run_eval; eauto.
Qed.

(** C6. [switchNetwork] never throws and never touches the chain
    cells: whatever the environment, [chainId] and [chainHex] are after
    the call what they were before it.  Every failure sets [error] to its
    text: the fixed message when no wallet is present; the text of the
    switch failure when its code is not 4902 or no parameters were
    supplied (so also for an unrecognized chain without parameters); the
    text of the failure of the add-chain request otherwise. *)
Theorem switchNetwork_failure (w : World) (hexChainId : string)
    (addChainParams : option AddChainParams) (s : Session) :
  let s' := after (switchNetwork w hexChainId addChainParams) s in
  outcome (switchNetwork w hexChainId addChainParams) = Ok tt /\
  Forall (fun a => setsChain a = false)
    (trace (switchNetwork w hexChainId addChainParams)) /\
  chainId s' = chainId s /\ chainHex s' = chainHex s /\
  (hasEthereum w = false ->
     error s' = Some "No wallet available to switch network.") /\
  (forall e, hasEthereum w = true ->
     switchEthereumChain w hexChainId = Err e ->
     codeOf e <> Some 4902 \/ addChainParams = None ->
     error s' = Some (describeSafe e)) /\
  (forall e params e', hasEthereum w = true ->
     switchEthereumChain w hexChainId = Err e ->
     codeOf e = Some 4902 -> addChainParams = Some params ->
     addEthereumChain w params = Err e' ->
     error s' = Some (describeSafe e')).
Proof.
  intros s'. subst s'.
  destruct (switchNetwork_only_sets_error w hexChainId addChainParams) as [Hout Htr].
  split; [exact Hout|].
  split; [destruct Htr as [-> | [msg ->]]; repeat constructor|].
  assert (Hframe : chainId (after (switchNetwork w hexChainId addChainParams) s)
                     = chainId s /\
                   chainHex (after (switchNetwork w hexChainId addChainParams) s)
                     = chainHex s).
  { unfold after. apply performAll_chain_frame.
    destruct Htr as [-> | [msg ->]]; reflexivity. }
  destruct Hframe as [Hid Hhex].
  split; [exact Hid|]. split; [exact Hhex|].
  unfold switchNetwork. repeat split.
  - intros ->. reflexivity.
  - intros e -> Hsw Hcase. simpl negb. cbn iota. run_eval. rewrite Hsw.
    destruct Hcase as [Hcode | ->].
    + rewrite bool_decide_eq_false_2 by exact Hcode. reflexivity.
    + destruct (bool_decide (codeOf e = Some 4902)); reflexivity.
  - intros e params e' -> Hsw Hcode -> Hadd. simpl negb. cbn iota. run_eval.
    rewrite Hsw. rewrite bool_decide_eq_true_2 by exact Hcode.
    run_eval. rewrite Hadd. reflexivity.
Qed.

Lemma switchNetwork_failure_witness :
  chainId (after (switchNetwork unknownChainWorld "0x5" None) staleSession)
    = Some (Js.Num 5) /\
  chainHex (after (switchNetwork unknownChainWorld "0x5" None) staleSession)
    = Some "0x5" /\
  error (after (switchNetwork unknownChainWorld "0x5" None) staleSession)
    = Some "Unrecognized chain ID.".
Proof.
  pose proof (switchNetwork_failure unknownChainWorld "0x5" None staleSession)
    as (_ & _ & Hid & Hhex & _ & Hsw & _).
  split; [exact Hid|]. split; [exact Hhex|].
  exact (Hsw unrecognizedChain eq_refl eq_refl (or_intror eq_refl)).
Defined.

(** ** Display of the balance *)

Lemma toFixed6_zero (d : Display.Decimal) :
  Display.mantissa d = 0%N -> Display.toFixed6 d = Some "0.000000".
Proof.
  intros Hm. unfold Display.toFixed6, Display.nearestDouble. rewrite Hm.
  simpl Z.of_N. simpl Z.eqb. cbn iota.
  unfold Display.toFixed6OfDouble. simpl.
  rewrite andb_false_r. reflexivity.
Qed.

(** C10 (as the code has it). For every balance text in plain decimal
    notation whose value is zero, [formatNumber] returns ["0"]: the
    trimming removes the dot and the six zeros after it, and keeps the
    zero before the dot; the balance row then reads ["0 ETH"]. *)
Theorem formatNumber_zero (n : string) (d : Display.Decimal) :
  Display.numberOf n = Some (Display.ParsedDecimal d) ->
  Display.mantissa d = 0%N ->
  Display.formatNumber n = Some "0" /\
  (n <> EmptyString -> Display.balanceRow (Some n) = Some "0 ETH").
Proof.
  intros Hn Hm.
  assert (Hf : Display.formatNumber n = Some "0").
  { unfold Display.formatNumber. rewrite Hn, (toFixed6_zero d Hm). reflexivity. }
  split; [exact Hf|].
  intros Hne. unfold Display.balanceRow.
  destruct n as [|c n]; [congruence|].
  rewrite Hf. reflexivity.
Qed.

Lemma formatNumber_zero_witness :
  Display.formatNumber "0.0" = Some "0" /\
  Display.balanceRow (Some "0.0") = Some "0 ETH".
Proof.
  destruct (formatNumber_zero "0.0" (Display.mkDecimal false 0 1) eq_refl eq_refl)
    as [Hf Hrow].
  split; [exact Hf|]. apply Hrow. discriminate.
Defined.

(** C10 as stated does not hold: the text ["0.0"], which is how a
    balance of zero is written, is formatted as ["0"], not as the empty
    text, and the row shows a number before the currency label. *)
Lemma formatNumber_zero_not_empty :
  Display.numberOf "0.0" = Some (Display.ParsedDecimal (Display.mkDecimal false 0 1)) /\
  Display.formatNumber "0.0" <> Some EmptyString /\
  Display.balanceRow (Some "0.0") <> Some " ETH".
Proof. repeat split; vm_compute; discriminate. Qed.

(** ** Hexadecimal text of a chain identifier *)

Lemma hexDigit_hexChar (d : N) :
  (d < 16)%N -> Js.hexDigit (Js.hexChar d) = Some (Z.of_N d).
Proof.
  intros Hd. rewrite <- (N2Nat.id d).
  assert (Hk : (N.to_nat d < 16)%nat) by lia.
  generalize dependent (N.to_nat d). intros k Hk.
  do 16 (destruct k as [|k]; [reflexivity|]). lia.
Qed.

Lemma hexPrefix_app (l1 l2 : list ascii) (acc : option Z) :
  Forall (fun c => Js.hexDigit c <> None) l1 ->
  Js.hexPrefix (string_of_list_ascii (l1 ++ l2)) acc =
  Js.hexPrefix (string_of_list_ascii l2) (Js.hexPrefix (string_of_list_ascii l1) acc).
Proof.
  intros Hall. revert acc.
  induction Hall as [|c l1 Hc Hall IH]; intros acc; simpl; [reflexivity|].
  destruct (Js.hexDigit c) as [d|]; [apply IH|congruence].
Qed.

Lemma hexDigitsRev_digits (fuel : nat) (n : N) :
  Forall (fun c => Js.hexDigit c <> None) (Js.hexDigitsRev fuel n).
Proof.
  revert n. induction fuel as [|fuel IH]; intros n; simpl; [constructor|].
  destruct (n =? 0)%N; constructor; [|apply IH].
  rewrite hexDigit_hexChar by (apply N.mod_lt; discriminate). discriminate.
Qed.

(** Reading back the digits written for [n], most significant first,
    gives [n], as soon as the fuel covers the binary size of [n]. *)
Lemma hexPrefix_hexDigitsRev (fuel : nat) (n : N) :
  (n < 2 ^ N.of_nat fuel)%N ->
  Js.hexPrefix (string_of_list_ascii (rev (Js.hexDigitsRev fuel n))) None =
  if (n =? 0)%N then None else Some (Z.of_N n).
Proof.
  revert n. induction fuel as [|fuel IH]; intros n Hn.
  - simpl in Hn. assert (n = 0%N) as -> by lia. reflexivity.
  - simpl Js.hexDigitsRev. destruct (n =? 0)%N eqn:Hz; [reflexivity|].
    apply N.eqb_neq in Hz. simpl rev.
    rewrite hexPrefix_app
      by (apply Forall_rev, hexDigitsRev_digits).
    assert (Hdiv : (n / 16 < 2 ^ N.of_nat fuel)%N).
    { rewrite Nat2N.inj_succ, N.pow_succ_r' in Hn.
      apply N.Div0.div_lt_upper_bound. lia. }
    rewrite (IH _ Hdiv). simpl Js.hexPrefix.
    rewrite hexDigit_hexChar by (apply N.mod_lt; discriminate).
    f_equal.
    pose proof (N.div_mod n 16 ltac:(discriminate)) as Hdm.
    destruct (n / 16 =? 0)%N eqn:Hq; simpl default.
    + apply N.eqb_eq in Hq. rewrite Hq in Hdm. lia.
    + lia.
Qed.

(** Round trip: the hexadecimal text written for a chain identifier
    below 2^53 is parsed back to that identifier. *)
Lemma parseInt16_hexOfChain (n : N) :
  Z.of_N n < 2 ^ 53 ->
  Js.parseInt16 (hexOfChain n) = Js.Num (Z.of_N n).
Proof.
  intros Hn.
  assert (Hto : Js.toNumber (Z.of_N n) = Js.Num (Z.of_N n)).
  { unfold Js.toNumber. rewrite Z.abs_eq by lia.
    destruct (Z.ltb_spec (Z.of_N n) (2 ^ 53)); [reflexivity|lia]. }
  change (hexOfChain n) with (String "0" (String "x" (Js.toString16 n))).
  change (Js.parseInt16 (String "0" (String "x" (Js.toString16 n))))
    with (match Js.hexPrefix (Js.toString16 n) None with
          | Some v => Js.toNumber v
          | None => Js.NaN
          end).
  unfold Js.toString16.
  destruct (n =? 0)%N eqn:Hz.
  - apply N.eqb_eq in Hz. subst n. reflexivity.
  - rewrite hexPrefix_hexDigitsRev.
    + rewrite Hz. exact Hto.
    + rewrite N2Nat.id. apply N.size_gt.
Qed.

(** [initProvider] catches what fails inside its [try]; its [catch]
    clause reads [err.message], which itself throws when the value
    caught is [undefined] or [null]. *)
Lemma initProvider_outcome (w : World) :
  outcome (initProvider w) = Ok tt \/ outcome (initProvider w) = Err typeError.
Proof.
  unfold initProvider.
  destruct (hasEthereum w); simpl negb; cbn iota; [|left; reflexivity].
  run_eval.
  destruct (newBrowserProvider w) as [p|e]; run_eval;
    [|destruct e; auto].
  destruct (getNetwork w) as [n|e]; run_eval; [|destruct e; auto].
  destruct (listAccounts w) as [[|first others]|e]; run_eval;
    [auto| |destruct e; auto].
  destruct (getAddress w first) as [a|e]; run_eval; [auto|destruct e; auto].
Qed.

(** What [initProvider] does to the chain cells: nothing, or, when it
    gets as far as reading the chain, both are written from the chain
    identifier the wallet reports. *)
Lemma initProvider_chain (w : World) (s : Session) :
  (chainId (after (initProvider w) s) = chainId s /\
   chainHex (after (initProvider w) s) = chainHex s) \/
  (exists p n, hasEthereum w = true /\ newBrowserProvider w = Ok p /\
     getNetwork w = Ok n /\
     chainId (after (initProvider w) s) = Some (Js.Num (Z.of_N n)) /\
     chainHex (after (initProvider w) s) = Some (hexOfChain n)).
Proof.
  unfold initProvider.
  destruct (hasEthereum w); simpl negb; cbn iota; [|left; split; reflexivity].
  run_eval.
  destruct (newBrowserProvider w) as [p|e]; run_eval.
  2: { left. destruct e; split; reflexivity. }
  destruct (getNetwork w) as [n|e]; run_eval.
  2: { left. destruct e; split; reflexivity. }
  right. exists p, n. do 3 (split; [reflexivity|]).
  destruct (listAccounts w) as [[|first others]|e]; run_eval.
  - split; reflexivity.
  - destruct (getAddress w first) as [a|e]; run_eval;
      [|destruct e]; split; reflexivity.
  - destruct e; split; reflexivity.
Qed.

Lemma parseInt16_mathInt16 (h : string) :
  Js.parseInt16 h =
  match mathInt16 h with
  | Some v => Js.toNumber v
  | None => Js.NaN
  end.
Proof.
  unfold Js.parseInt16, mathInt16.
  destruct (Js.stripSign (Js.trimStart h)) as [negative body].
  destruct (Js.hexPrefix (Js.stripHexPrefix body) None); reflexivity.
Qed.

(** The text written for a chain identifier reads, in base 16, as that
    identifier, whatever its size. *)
Lemma mathInt16_hexOfChain (n : N) : mathInt16 (hexOfChain n) = Some (Z.of_N n).
Proof.
  change (hexOfChain n) with (String "0" (String "x" (Js.toString16 n))).
  change (mathInt16 (String "0" (String "x" (Js.toString16 n))))
    with (match Js.hexPrefix (Js.toString16 n) None with
          | Some v => Some v
          | None => None
          end).
  unfold Js.toString16.
  destruct (n =? 0)%N eqn:Hz.
  - apply N.eqb_eq in Hz. subst n. reflexivity.
  - rewrite hexPrefix_hexDigitsRev by (rewrite N2Nat.id; apply N.size_gt).
    rewrite Hz. reflexivity.
Qed.

(** C7. After the chain-changed handler, for every payload and every
    environment, the two chain cells hold the same identifier in two
    encodings: [chainId] is [chainHex] read in base 16.  Either it is the
    Number that [parseInt] makes of the text (what the handler writes
    from the payload, and what stays when the reconciliation it runs does
    not get to read the chain), or it is the chain identifier read from
    the wallet, whose text ["0x" + chainId.toString(16)] is [chainHex]
    and reads back, digit for digit, as that identifier.  Below 2^53,
    where a Number is exact, the two readings coincide. *)
Theorem chain_changed_consistent (w : World) (hexChain : string) (s : Session) :
  let s' := after (onChainChanged w hexChain) s in
  (exists rest,
     trace (onChainChanged w hexChain) =
     SetChainHex (Some hexChain) :: SetChainId (Some (Js.parseInt16 hexChain)) :: rest) /\
  (exists h, chainHex s' = Some h /\
     (chainId s' = Some (Js.parseInt16 h) \/
      exists n, getNetwork w = Ok n /\ h = hexOfChain n /\
                mathInt16 h = Some (Z.of_N n) /\
                chainId s' = Some (Js.Num (Z.of_N n)))) /\
  (hasEthereum w = false \/ (exists e, newBrowserProvider w = Err e)
     \/ (exists e, getNetwork w = Err e) ->
   chainHex s' = Some hexChain /\ chainId s' = Some (Js.parseInt16 hexChain)) /\
  ((forall n, getNetwork w = Ok n -> Z.of_N n < 2 ^ 53) ->
   exists h, chainHex s' = Some h /\ chainId s' = Some (Js.parseInt16 h)).
Proof.
  intros s'.
  assert (Ht : trace (onChainChanged w hexChain) =
               SetChainHex (Some hexChain)
                 :: SetChainId (Some (Js.parseInt16 hexChain))
                 :: trace (initProvider w)).
  { unfold onChainChanged. run_eval. reflexivity. }
  split; [eauto|].
  set (s0 := perform (perform s (SetChainHex (Some hexChain)))
               (SetChainId (Some (Js.parseInt16 hexChain)))).
  assert (Hs' : s' = after (initProvider w) s0).
  { unfold s', after. rewrite Ht. reflexivity. }
  rewrite Hs'.
  destruct (initProvider_chain w s0)
    as [[Hid Hhex] | (p & n & Hw & Hp & Hnet & Hid & Hhex)].
  - rewrite Hid, Hhex. simpl.
    split; [exists hexChain; auto|]. split; [auto|]. intros _. exists hexChain. auto.
  - rewrite Hid, Hhex. split; [|split].
    + exists (hexOfChain n). split; [reflexivity|]. right. exists n.
      repeat split; [exact Hnet|apply mathInt16_hexOfChain].
    + intros [Hno | [[e He] | [e He]]]; congruence.
    + intros Hsafe. exists (hexOfChain n). split; [reflexivity|].
      rewrite parseInt16_hexOfChain by (apply Hsafe; exact Hnet). reflexivity.
Qed.

Lemma chain_changed_consistent_witness :
  (forall n, getNetwork mainnetWorld = Ok n -> Z.of_N n < 2 ^ 53) /\
  exists h,
    chainHex (after (onChainChanged mainnetWorld "0x5") staleSession) = Some h /\
    chainId (after (onChainChanged mainnetWorld "0x5") staleSession)
      = Some (Js.parseInt16 h).
Proof.
  assert (Hsafe : forall n, getNetwork mainnetWorld = Ok n -> Z.of_N n < 2 ^ 53).
  { intros n Hn. injection Hn as <-. reflexivity. }
  split; [exact Hsafe|].
  exact (proj2 (proj2 (proj2
           (chain_changed_consistent mainnetWorld "0x5" staleSession))) Hsafe).
Defined.

(** ** Balance refresh under superseded queries *)

Section BalanceRace.

Variable formatEther : N -> string.

Lemma loadBalanceResume_unmounted (r : Result N) :
  trace (loadBalanceResume formatEther false r) = [].
Proof. destruct r; reflexivity. Qed.

Lemma loadBalanceResume_deps (isMounted : bool) (r : Result N) (s : Session) :
  deps (after (loadBalanceResume formatEther isMounted r) s) = deps s.
Proof. destruct isMounted, r as [bal|[]]; reflexivity. Qed.

Lemma loadBalanceStart_query (s : Session) (p : Handle) (a : string) :
  outcome (loadBalanceStart s) = Ok (Some (p, a)) ->
  provider s = Some p /\ address s = Some a /\ after (loadBalanceStart s) s = s.
Proof.
  unfold loadBalanceStart.
  destruct (provider s) as [p'|]; [|discriminate].
  destruct (address s) as [[|c a']|]; simpl; try discriminate.
  intros H. injection H as <- <-. auto.
Qed.

Lemma loadBalanceStart_outcome (s : Session) :
  exists q, outcome (loadBalanceStart s) = Ok q /\
            deps (after (loadBalanceStart s) s) = deps s.
Proof.
  unfold loadBalanceStart.
  destruct (provider s) as [p|]; [|eexists; split; reflexivity].
  destruct (address s) as [[|c a]|]; eexists; split; reflexivity.
Qed.

Lemma wellFormed_runEffect (s : Session) (rs : list EffectRun) :
  rs = [] \/ (exists older newest, rs = older ++ [newest] /\
                Forall (fun r => mounted r = false) older) ->
  wellFormed (runEffect s rs).
Proof.
  intros Hrs. unfold wellFormed, runEffect. simpl.
  destruct (loadBalanceStart_outcome s) as (q & Hq & Hdeps).
  exists (alter unmount (pred (length rs)) rs),
         (mkEffectRun true (match outcome (loadBalanceStart s) with
                            | Ok q => q | Err _ => None end)).
  split; [reflexivity|]. split; [|split; [reflexivity|]].
  - destruct Hrs as [-> | (older & newest & -> & Hold)]; [constructor|].
    rewrite length_app. simpl length.
    replace (pred (length older + 1)) with (length older + 0)%nat by lia.
    rewrite alter_app_r. simpl. apply Forall_app_2; [exact Hold|].
    constructor; [reflexivity|constructor].
  - intros p a Hpa. simpl in Hpa. rewrite Hq in Hpa. subst q.
    destruct (loadBalanceStart_query s p a Hq) as (Hp & Ha & ->). auto.
Qed.

Lemma wellFormed_initial : wellFormed initialPage.
Proof. apply wellFormed_runEffect. left. reflexivity. Qed.

(** Settling a run while the newest run is not concerned, or has no
    query left: the session stays, and so does the shape of the runs. *)
Lemma settle_quiet (pg : Page) (older : list EffectRun) (newest : EffectRun)
    (i : nat) (r : Result N) :
  runs pg = older ++ [newest] ->
  Forall (fun r => mounted r = false) older ->
  query newest = None \/ i <> length older ->
  exists older',
    runs (step formatEther pg (Settle i r)) = older' ++ [newest] /\
    Forall (fun r => mounted r = false) older' /\
    length older' = length older /\
    session (step formatEther pg (Settle i r)) = session pg.
Proof.
  intros Hruns Hold Hcase. unfold step. rewrite Hruns.
  destruct (lt_eq_lt_dec i (length older)) as [[Hlt | ->] | Hgt].
  - rewrite lookup_app_l by exact Hlt.
    destruct (lookup_lt_is_Some_2 older i Hlt) as [run Hrun]. rewrite Hrun.
    pose proof (Forall_lookup_1 _ _ _ _ Hold Hrun) as Hm. simpl in Hm.
    destruct (query run) as [q|].
    + simpl. rewrite Hm. unfold after. rewrite loadBalanceResume_unmounted.
      exists (<[i := settled run]> older).
      rewrite insert_app_l by exact Hlt.
      split; [reflexivity|]. split; [|split; [apply length_insert|reflexivity]].
      apply Forall_insert; [exact Hold|exact Hm].
    + exists older. rewrite <- Hruns. auto.
  - rewrite list_lookup_middle by reflexivity.
    destruct Hcase as [-> | Hne]; [|congruence].
    exists older. rewrite <- Hruns. auto.
  - rewrite lookup_ge_None_2 by (rewrite length_app; simpl; lia).
    exists older. rewrite <- Hruns. auto.
Qed.

Lemma wellFormed_step (pg : Page) (ev : Event) :
  wellFormed pg -> wellFormed (step formatEther pg ev).
Proof.
  intros (older & newest & Hruns & Hold & Hm & Hdeps).
  destruct ev as [actions | i r].
  - simpl. destruct (decide _) as [Heq | Hne].
    + exists older, newest. simpl. repeat split; auto;
        unfold deps in Heq; injection Heq as Hp Ha;
        rewrite ?Hp, ?Ha; apply (Hdeps p a); assumption.
    + apply wellFormed_runEffect. right. eauto.
  - destruct (decide (i = length older)) as [-> | Hne].
    + unfold step. rewrite Hruns, list_lookup_middle by reflexivity.
      destruct (query newest) as [[p a]|] eqn:Hq.
      * exists older, (settled newest). simpl.
        replace (length older) with (length older + 0)%nat by lia.
        rewrite insert_app_r. simpl. repeat split; auto; discriminate.
      * exists older, newest. repeat split; auto; congruence.
    + destruct (settle_quiet pg older newest i r Hruns Hold (or_intror Hne))
        as (older' & Hruns' & Hold' & _ & Hs).
      exists older', newest. rewrite Hs. auto.
Qed.

Lemma wellFormed_steps (evs : list Event) (pg : Page) :
  wellFormed pg -> wellFormed (steps formatEther evs pg).
Proof.
  revert pg. induction evs as [|ev evs IH]; intros pg H; simpl; [exact H|].
  apply IH, wellFormed_step, H.
Qed.

(** A sequence of settlements that does not settle an open query of the
    newest run leaves the session as it is. *)
Lemma settles_quiet (evs : list Event) (pg : Page)
    (older : list EffectRun) (newest : EffectRun) :
  runs pg = older ++ [newest] ->
  Forall (fun r => mounted r = false) older ->
  forallb isSettle evs = true ->
  query newest = None \/
    forallb (fun ev => negb (settlesRun (length older) ev)) evs = true ->
  exists older',
    runs (steps formatEther evs pg) = older' ++ [newest] /\
    Forall (fun r => mounted r = false) older' /\
    length older' = length older /\
    session (steps formatEther evs pg) = session pg.
Proof.
  revert pg older. induction evs as [|ev evs IH]; intros pg older Hruns Hold Hset Hcase.
  - exists older. auto.
  - simpl in Hset. apply andb_prop in Hset as [Hev Hset].
    destruct ev as [actions | i r]; [discriminate|].
    assert (Hi : query newest = None \/ i <> length older).
    { destruct Hcase as [Hq | Hall]; [left; exact Hq|right].
      simpl in Hall. apply andb_prop in Hall as [Hi _].
      apply negb_true_iff, Nat.eqb_neq in Hi. congruence. }
    destruct (settle_quiet pg older newest i r Hruns Hold Hi)
      as (older1 & Hruns1 & Hold1 & Hlen1 & Hs1).
    assert (Hcase1 : query newest = None \/
              forallb (fun ev => negb (settlesRun (length older1) ev)) evs = true).
    { destruct Hcase as [Hq | Hall]; [left; exact Hq|right].
      simpl in Hall. apply andb_prop in Hall as [_ Hall]. rewrite Hlen1. exact Hall. }
    destruct (IH _ older1 Hruns1 Hold1 Hset Hcase1)
      as (older2 & Hruns2 & Hold2 & Hlen2 & Hs2).
    exists older2.
    change (steps formatEther (Settle i r :: evs) pg)
      with (steps formatEther evs (step formatEther pg (Settle i r))).
    rewrite Hs2, Hs1. repeat split; auto. congruence.
Qed.

End BalanceRace.

(** C8. At any page reached from the first render, settling the query
    of a run that has been superseded leaves the session as it is; and
    when the newest run has a query in flight for provider [p] and
    address [a], then, in whatever order the open queries settle and
    with whatever results, once the newest query has settled the session
    holds [p], [a] and the balance of the newest query: the text
    formatted from its amount, or, when it failed, the balance that was
    shown before. *)
Theorem balance_race (formatEther : N -> string)
    (history before later : list Event) (p : Handle) (a : string)
    (result : Result N) :
  let pg := steps formatEther history initialPage in
  let newest := pred (length (runs pg)) in
  query <$> runs pg !! newest = Some (Some (p, a)) ->
  forallb isSettle (before ++ later) = true ->
  forallb (fun ev => negb (settlesRun newest ev)) before = true ->
  let final := steps formatEther (before ++ Settle newest result :: later) pg in
  (forall i r, (S i < length (runs pg))%nat ->
     session (step formatEther pg (Settle i r)) = session pg) /\
  provider (session final) = Some p /\
  address (session final) = Some a /\
  balance (session final) =
    match result with
    | Ok bal => Some (formatEther bal)
    | Err _ => balance (session pg)
    end.
Proof.
  intros pg newest Hnewest Hsettles Hbefore final.
  assert (Hwf : wellFormed pg)
    by (apply wellFormed_steps, wellFormed_initial).
  destruct Hwf as (older & run & Hruns & Hold & Hm & Hdeps).
  assert (Hidx : pred (length (runs pg)) = length older).
  { rewrite Hruns, length_app. simpl. lia. }
  subst final newest. rewrite Hidx in *. clear Hidx.
  rewrite Hruns, list_lookup_middle in Hnewest by reflexivity.
  simpl in Hnewest. injection Hnewest as Hq.
  destruct run as [m q]. simpl in Hm, Hq. subst m q.
  destruct (Hdeps p a eq_refl) as [Hp Ha].
  split.
  - intros i r Hi. rewrite Hruns, length_app in Hi. simpl in Hi.
    destruct (settle_quiet formatEther pg older _ i r Hruns Hold) as (_ & _ & _ & _ & Hs);
      [right; lia|exact Hs].
  - rewrite forallb_app in Hsettles. apply andb_prop in Hsettles as [Hsb Hsl].
    destruct (settles_quiet formatEther before pg older _ Hruns Hold Hsb
                (or_intror Hbefore))
      as (older1 & Hruns1 & Hold1 & Hlen1 & Hs1).
    set (pg1 := steps formatEther before pg) in *.
    set (pg2 := step formatEther pg1 (Settle (length older) result)).
    assert (Hfinal : steps formatEther
                       (before ++ Settle (length older) result :: later) pg
                     = steps formatEther later pg2).
    { unfold steps. rewrite fold_left_app. reflexivity. }
    assert (Hpg2 : session pg2 = after (loadBalanceResume formatEther true result)
                                   (session pg)
                   /\ runs pg2 = older1 ++ [settled (mkEffectRun true (Some (p, a)))]).
    { unfold pg2, step. rewrite Hruns1, <- Hlen1.
      rewrite list_lookup_middle by reflexivity. simpl query. cbn iota.
      simpl session. simpl runs. rewrite Hs1. split; [reflexivity|].
      replace (length older1) with (length older1 + 0)%nat by lia.
      rewrite insert_app_r. reflexivity. }
    destruct Hpg2 as [Hs2 Hruns2].
    destruct (settles_quiet formatEther later pg2 older1 _ Hruns2 Hold1 Hsl
                (or_introl eq_refl))
      as (older3 & _ & _ & _ & Hs3).
    rewrite Hfinal, Hs3, Hs2.
    pose proof (loadBalanceResume_deps formatEther true result (session pg)) as Hd.
    unfold deps in Hd. injection Hd as Hdp Hda.
    rewrite Hdp, Hda. repeat split; [exact Hp|exact Ha|].
    destruct result as [bal|[]]; reflexivity.
Qed.

Lemma balance_race_witness :
  let final :=
    steps sampleFormatEther
      ([] ++ Settle 2 (Ok 2000000000000000000%N)
             :: [Settle 1 (Ok 1000000000000000000%N)])
      (steps sampleFormatEther raceHistory initialPage) in
  address (session final) = Some account2 /\
  balance (session final) = Some "2.0".
Proof.
  pose proof (balance_race sampleFormatEther raceHistory []
                [Settle 1 (Ok 1000000000000000000%N)] 7%nat account2
                (Ok 2000000000000000000%N) eq_refl eq_refl eq_refl)
    as (_ & _ & Ha & Hb).
  split; [exact Ha|exact Hb].
Defined.

(** * Further properties of the component *)

(** ** Traces and sessions *)

Lemma performAll_snoc (t : list Action) (a : Action) (s : Session) :
  performAll (t ++ [a]) s = perform (performAll t s) a.
Proof. unfold performAll. rewrite fold_left_app. reflexivity. Qed.

(** ** Connection flow, beyond the claims *)

(** X2. Whatever the environment answers, [connect] returns normally
    and [connecting] is false once its setter calls have taken effect. *)
Theorem connect_settles (w : World) (s : Session) :
  outcome (connect w) = Ok tt /\ connecting (after (connect w) s) = false.
Proof.
  split; [apply connect_returns|].
  unfold connect, after.
  rewrite trace_bind, outcome_act. rewrite trace_bind, outcome_act.
  rewrite trace_tryFinally, !trace_act.
  rewrite !app_assoc, performAll_snoc. reflexivity.
Qed.

(** X3. When the wallet grants a non-empty list of accounts and every
    read succeeds, [connect] writes the provider, the signer derived from
    it, the checksummed first account and both chain cells, leaves
    [error] absent and [connecting] false, and does not touch the
    balance. *)
Theorem connect_success (w : World) (s : Session) (first : string)
    (others : list string) (p : Handle) (a : string) (n : N) :
  hasEthereum w = true ->
  requestAccounts w = Ok (Some (first :: others)) ->
  newBrowserProvider w = Ok p ->
  getAddress w first = Ok a ->
  getNetwork w = Ok n ->
  after (connect w) s =
    mkSession (Some p) (Some (getSigner w p)) (Some a) (balance s)
      (Some (Js.Num (Z.of_N n))) (Some (hexOfChain n)) None false.
Proof.
  intros Hw Hreq Hp Ha Hn.
  unfold connect. rewrite Hw. simpl negb. cbn iota.
  run_eval. rewrite Hreq. run_eval. rewrite Hp. run_eval.
  rewrite Ha. run_eval. rewrite Hn. run_eval. reflexivity.
Qed.

Lemma connect_success_witness :
  after (connect mainnetWorld) staleSession =
    mkSession (Some 7%nat) (Some 8%nat) (Some account1) (Some "1.5")
      (Some (Js.Num 1)) (Some "0x1") None false.
Proof.
  exact (connect_success mainnetWorld staleSession account1 [] 7%nat account1 1%N
           eq_refl eq_refl eq_refl eq_refl eq_refl).
Defined.

(** X4. When the account is granted and normalized but the network
    cannot be read, [connect] has already written provider, signer and
    address: the account is connected, the chain cells keep their earlier
    values, and [error] holds the text of the failure. *)
Theorem connect_network_read_fails (w : World) (s : Session) (first : string)
    (others : list string) (p : Handle) (a : string) (e : Thrown) :
  hasEthereum w = true ->
  requestAccounts w = Ok (Some (first :: others)) ->
  newBrowserProvider w = Ok p ->
  getAddress w first = Ok a ->
  getNetwork w = Err e ->
  after (connect w) s =
    mkSession (Some p) (Some (getSigner w p)) (Some a) (balance s)
      (chainId s) (chainHex s) (Some (describeSafe e)) false.
Proof.
  intros Hw Hreq Hp Ha Hn.
  unfold connect. rewrite Hw. simpl negb. cbn iota.
  run_eval. rewrite Hreq. run_eval. rewrite Hp. run_eval.
  rewrite Ha. run_eval. rewrite Hn. run_eval. reflexivity.
Qed.

Lemma connect_network_read_fails_witness :
  after (connect networkDownWorld) staleSession =
    mkSession (Some 7%nat) (Some 8%nat) (Some account1) (Some "1.5")
      (Some (Js.Num 5)) (Some "0x5") (Some "User rejected the request.") false.
Proof.
  exact (connect_network_read_fails networkDownWorld staleSession account1 []
           7%nat account1 userRejected eq_refl eq_refl eq_refl eq_refl eq_refl).
Defined.

(** X5. When the first granted account is rejected by
    [ethers.getAddress], [connect] has already replaced the provider and
    the signer: they are the new ones, while the address and the chain
    cells keep their earlier values and [error] holds the text of the
    failure. *)
Theorem connect_address_rejected (w : World) (s : Session) (first : string)
    (others : list string) (p : Handle) (e : Thrown) :
  hasEthereum w = true ->
  requestAccounts w = Ok (Some (first :: others)) ->
  newBrowserProvider w = Ok p ->
  getAddress w first = Err e ->
  after (connect w) s =
    mkSession (Some p) (Some (getSigner w p)) (address s) (balance s)
      (chainId s) (chainHex s) (Some (describeSafe e)) false.
Proof.
  intros Hw Hreq Hp Ha.
  unfold connect. rewrite Hw. simpl negb. cbn iota.
  run_eval. rewrite Hreq. run_eval. rewrite Hp. run_eval.
  rewrite Ha. run_eval. reflexivity.
Qed.

Lemma connect_address_rejected_witness :
  after (connect malformedReplyWorld) staleSession =
    mkSession (Some 7%nat) (Some 8%nat) (Some account1) (Some "1.5")
      (Some (Js.Num 5)) (Some "0x5") (Some "invalid address") false.
Proof.
  exact (connect_address_rejected malformedReplyWorld staleSession "0x123" []
           7%nat invalidAddress eq_refl eq_refl eq_refl eq_refl).
Defined.

(** X6. When the wallet answers the authorization request with an
    empty list, or with no list, [connect] records nothing: it returns
    normally and the session is as before, except that [error] is absent
    and [connecting] is false. *)
Theorem connect_empty_reply (w : World) (s : Session) :
  hasEthereum w = true ->
  requestAccounts w = Ok (Some []) \/ requestAccounts w = Ok None ->
  after (connect w) s =
    mkSession (provider s) (signer s) (address s) (balance s)
      (chainId s) (chainHex s) None false.
Proof.
  intros Hw Hreq.
  unfold connect. rewrite Hw. simpl negb. cbn iota.
  run_eval. destruct Hreq as [-> | ->]; reflexivity.
Qed.

Lemma connect_empty_reply_witness :
  after (connect emptyReplyWorld) staleSession =
    mkSession (Some 3%nat) (Some 4%nat) (Some account1) (Some "1.5")
      (Some (Js.Num 5)) (Some "0x5") None false.
Proof.
  exact (connect_empty_reply emptyReplyWorld staleSession eq_refl
           (or_introl eq_refl)).
Defined.

(** ** Event handlers and reconciliation, beyond the claims *)

(** X7. Whatever the payload and the environment, the accounts-changed
    handler never writes the provider, the chain cells, [error] or
    [connecting]: a disconnection leaves the provider handle and the
    chain in the session. *)
Theorem accounts_changed_frame (w : World) (accs : option (list string))
    (s : Session) :
  let s' := after (onAccountsChanged w accs) s in
  provider s' = provider s /\ chainId s' = chainId s /\
  chainHex s' = chainHex s /\ error s' = error s /\
  connecting s' = connecting s.
Proof.
  unfold onAccountsChanged.
  destruct accs as [[|first others]|]; try (repeat split; reflexivity).
  run_eval.
  destruct (getAddress w first) as [a|e]; run_eval; [|repeat split; reflexivity].
  destruct (newBrowserProvider w) as [p|e]; repeat split; reflexivity.
Qed.

(** X8. With a non-empty payload whose first entry is accepted by
    [ethers.getAddress], the accounts-changed handler writes that entry,
    checksummed, as the address, and the signer of a newly constructed
    provider; the new provider itself is not stored, and the balance is
    left to the balance effect. *)
Theorem accounts_changed_selects_first (w : World) (s : Session)
    (first : string) (others : list string) (a : string) (p : Handle) :
  getAddress w first = Ok a ->
  newBrowserProvider w = Ok p ->
  outcome (onAccountsChanged w (Some (first :: others))) = Ok tt /\
  after (onAccountsChanged w (Some (first :: others))) s =
    mkSession (provider s) (Some (getSigner w p)) (Some a) (balance s)
      (chainId s) (chainHex s) (error s) (connecting s).
Proof.
  intros Ha Hp. unfold onAccountsChanged. run_eval.
  rewrite Ha. run_eval. rewrite Hp. run_eval. split; reflexivity.
Qed.

Lemma accounts_changed_selects_first_witness :
  after (onAccountsChanged mainnetWorld (Some [account2; account1])) staleSession =
    mkSession (Some 3%nat) (Some 8%nat) (Some account2) (Some "1.5")
      (Some (Js.Num 5)) (Some "0x5") (Some "old failure") false.
Proof.
  exact (proj2 (accounts_changed_selects_first mainnetWorld staleSession account2
                  [account1] account2 7%nat eq_refl eq_refl)).
Defined.

(** X9. Whatever the environment, [initProvider] never writes the
    balance or [connecting] and never makes the address absent; when the
    wallet lists no authorized account, the address of the session stays
    as it was. *)
Theorem initProvider_frame (w : World) (s : Session) :
  let s' := after (initProvider w) s in
  balance s' = balance s /\ connecting s' = connecting s /\
  (is_Some (address s) -> is_Some (address s')) /\
  (listAccounts w = Ok [] -> address s' = address s).
Proof.
  unfold initProvider.
  destruct (hasEthereum w); simpl negb; cbn iota;
    [|repeat split; auto].
  run_eval.
  destruct (newBrowserProvider w) as [p|e]; run_eval;
    [|destruct e; repeat split; auto].
  destruct (getNetwork w) as [n|e]; run_eval;
    [|destruct e; repeat split; auto].
  destruct (listAccounts w) as [[|first others]|e]; run_eval;
    [repeat split; auto| |destruct e; repeat split; auto; discriminate].
  destruct (getAddress w first) as [a|e]; run_eval;
    [|destruct e]; repeat split; simpl; eauto; discriminate.
Qed.

Lemma initProvider_frame_witness :
  listAccounts emptyReplyWorld = Ok [] /\
  address (after (initProvider emptyReplyWorld) staleSession) = Some account1.
Proof.
  split; [reflexivity|].
  exact (proj2 (proj2 (proj2 (initProvider_frame emptyReplyWorld staleSession)))
           eq_refl).
Defined.

(** X10. Partial success of the reconciliation: when the chain is read
    and the list of accounts is not, [initProvider] returns normally with
    the new provider and both chain cells written and the text of the
    failure in [error]; signer, address, balance and [connecting] are as
    before. *)
Theorem initProvider_partial_success (w : World) (s : Session) (p : Handle)
    (n : N) (code : option Z) (message : option string) (text : string) :
  hasEthereum w = true ->
  newBrowserProvider w = Ok p ->
  getNetwork w = Ok n ->
  listAccounts w = Err (ThrownValue code message text) ->
  outcome (initProvider w) = Ok tt /\
  after (initProvider w) s =
    mkSession (Some p) (signer s) (address s) (balance s)
      (Some (Js.Num (Z.of_N n))) (Some (hexOfChain n))
      (Some (describeSafe (ThrownValue code message text))) (connecting s).
Proof.
  intros Hw Hp Hn Hl. unfold initProvider. rewrite Hw. simpl negb. cbn iota.
  run_eval. rewrite Hp. run_eval. rewrite Hn. run_eval. rewrite Hl. run_eval.
  split; reflexivity.
Qed.

Lemma initProvider_partial_success_witness :
  after (initProvider accountsDownWorld) staleSession =
    mkSession (Some 7%nat) (Some 4%nat) (Some account1) (Some "1.5")
      (Some (Js.Num 1)) (Some "0x1") (Some "User rejected the request.") false.
Proof.
  exact (proj2 (initProvider_partial_success accountsDownWorld staleSession 7%nat
                  1%N (Some 4001) (Some "User rejected the request.")
                  "Error: User rejected the request."
                  eq_refl eq_refl eq_refl eq_refl)).
Defined.

(** X11. Round trip of a chain identifier below 2^53: the text
    ["0x" + n.toString(16)] parses back, in base 16, to [n]; hence two
    such identifiers with the same text are equal. *)
Theorem chain_hex_round_trip (n m : N) :
  Z.of_N n < 2 ^ 53 -> Z.of_N m < 2 ^ 53 ->
  Js.parseInt16 (hexOfChain n) = Js.Num (Z.of_N n) /\
  (hexOfChain n = hexOfChain m -> n = m).
Proof.
  intros Hn Hm. split; [apply parseInt16_hexOfChain, Hn|].
  intros Heq.
  pose proof (parseInt16_hexOfChain n Hn) as H1.
  pose proof (parseInt16_hexOfChain m Hm) as H2.
  rewrite Heq, H2 in H1. injection H1 as H1. lia.
Qed.

Lemma chain_hex_round_trip_witness :
  Js.parseInt16 (hexOfChain 137) = Js.Num 137.
Proof.
  exact (proj1 (chain_hex_round_trip 137 1 eq_refl eq_refl)).
Defined.

(** X12. When the payload of a chain-changed notification is the text
    of the chain identifier that the wallet reports (below 2^53), the
    reconciliation confirms what the handler wrote: after the handler the
    chain cells hold that text and that identifier, whether or not the
    reconciliation got to read the chain. *)
Theorem chain_changed_coherent (w : World) (s : Session) (n : N) :
  Z.of_N n < 2 ^ 53 ->
  getNetwork w = Ok n ->
  chainHex (after (onChainChanged w (hexOfChain n)) s) = Some (hexOfChain n) /\
  chainId (after (onChainChanged w (hexOfChain n)) s) = Some (Js.Num (Z.of_N n)).
Proof.
  intros Hn Hnet.
  assert (Ht : trace (onChainChanged w (hexOfChain n)) =
               SetChainHex (Some (hexOfChain n))
                 :: SetChainId (Some (Js.parseInt16 (hexOfChain n)))
                 :: trace (initProvider w)).
  { unfold onChainChanged. run_eval. reflexivity. }
  set (s0 := perform (perform s (SetChainHex (Some (hexOfChain n))))
               (SetChainId (Some (Js.parseInt16 (hexOfChain n))))).
  assert (Hs' : after (onChainChanged w (hexOfChain n)) s = after (initProvider w) s0).
  { unfold after. rewrite Ht. reflexivity. }
  rewrite Hs'.
  destruct (initProvider_chain w s0)
    as [[Hid Hhex] | (p & n' & _ & _ & Hnet' & Hid & Hhex)].
  - rewrite Hid, Hhex. simpl. rewrite parseInt16_hexOfChain by exact Hn. auto.
  - rewrite Hnet in Hnet'. injection Hnet' as <-. auto.
Qed.

Lemma chain_changed_coherent_witness :
  chainHex (after (onChainChanged mainnetWorld (hexOfChain 1)) staleSession)
    = Some "0x1" /\
  chainId (after (onChainChanged mainnetWorld (hexOfChain 1)) staleSession)
    = Some (Js.Num 1).
Proof.
  exact (chain_changed_coherent mainnetWorld staleSession 1%N eq_refl eq_refl).
Defined.

(** ** Network switch, beyond the claims *)

(** X13. When the wallet performs the switch, or reports the chain as
    unrecognized (code 4902) and then accepts the add-chain request made
    with the supplied parameters, [switchNetwork] makes no setter call at
    all: the session, an earlier [error] included, is as before. *)
Theorem switchNetwork_success_silent (w : World) (hexChainId : string)
    (addChainParams : option AddChainParams) (s : Session) :
  hasEthereum w = true ->
  switchEthereumChain w hexChainId = Ok tt \/
  (exists e params,
     switchEthereumChain w hexChainId = Err e /\ codeOf e = Some 4902 /\
     addChainParams = Some params /\ addEthereumChain w params = Ok tt) ->
  switchNetwork w hexChainId addChainParams = ([], Ok tt) /\
  after (switchNetwork w hexChainId addChainParams) s = s.
Proof.
  intros Hw Hcase.
  assert (Hrun : switchNetwork w hexChainId addChainParams = ([], Ok tt)).
  { unfold switchNetwork. rewrite Hw. simpl negb. cbn iota.
    destruct Hcase as [Hsw | (e & params & Hsw & Hcode & -> & Hadd)]; rewrite Hsw.
    - reflexivity.
    - unfold tryCatch at 1, call at 1.
      rewrite bool_decide_eq_true_2 by exact Hcode. rewrite Hadd. reflexivity. }
  rewrite Hrun. split; reflexivity.
Qed.

Lemma switchNetwork_success_silent_witness :
  after (switchNetwork addableChainWorld "0x89" (Some polygonParams)) staleSession
    = staleSession.
Proof.
  refine (proj2 (switchNetwork_success_silent addableChainWorld "0x89"
                   (Some polygonParams) staleSession eq_refl _)).
  right. exists unrecognizedChain, polygonParams. repeat split.
Defined.

(** X14. Whatever the environment, [switchNetwork] writes no cell
    other than [error], and never clears it: an error shown before the
    call is still shown, or replaced by a new text, after it. *)
Theorem switchNetwork_frame (w : World) (hexChainId : string)
    (addChainParams : option AddChainParams) (s : Session) :
  let s' := after (switchNetwork w hexChainId addChainParams) s in
  provider s' = provider s /\ signer s' = signer s /\
  address s' = address s /\ balance s' = balance s /\
  connecting s' = connecting s /\
  (is_Some (error s) -> is_Some (error s')).
Proof.
  intros s'. subst s'. unfold after.
  destruct (switchNetwork_only_sets_error w hexChainId addChainParams)
    as [_ [-> | [msg ->]]]; simpl; repeat split; eauto.
Qed.

Lemma switchNetwork_frame_witness :
  is_Some (error staleSession) /\
  is_Some (error (after (switchNetwork addableChainWorld "0x89" (Some polygonParams))
                    staleSession)).
Proof.
  assert (H : is_Some (error staleSession)) by (eexists; reflexivity).
  split; [exact H|].
  exact (proj2 (proj2 (proj2 (proj2 (proj2
           (switchNetwork_frame addableChainWorld "0x89" (Some polygonParams)
              staleSession))))) H).
Defined.

(** ** Whole executions of the page *)

(** X15. No operation of the component writes a balance text: in the
    traces of [connect], [initProvider], [switchNetwork] and of the two
    event handlers, the only call of the balance setter is the one that
    clears it.  Balance texts come from the balance effect alone. *)
Theorem operations_leave_balance_to_effect (w : World) (hexChain : string)
    (addChainParams : option AddChainParams) (accs : option (list string)) :
  keepsBalanceToEffect (Update (trace (connect w))) = true /\
  keepsBalanceToEffect (Update (trace (initProvider w))) = true /\
  keepsBalanceToEffect (Update (trace (onChainChanged w hexChain))) = true /\
  keepsBalanceToEffect (Update (trace (onAccountsChanged w accs))) = true /\
  keepsBalanceToEffect
    (Update (trace (switchNetwork w hexChain addChainParams))) = true.
Proof.
  assert (Hinit : keepsBalanceToEffect (Update (trace (initProvider w))) = true).
  { unfold initProvider.
    destruct (hasEthereum w); simpl negb; cbn iota; [|reflexivity]. run_eval.
    destruct (newBrowserProvider w) as [p|e]; run_eval; [|destruct e; reflexivity].
    destruct (getNetwork w) as [n|e]; run_eval; [|destruct e; reflexivity].
    destruct (listAccounts w) as [[|first others]|e]; run_eval;
      [reflexivity| |destruct e; reflexivity].
    destruct (getAddress w first) as [a|e]; run_eval; [|destruct e]; reflexivity. }
  repeat split.
  - unfold connect.
    destruct (hasEthereum w); simpl negb; cbn iota; run_eval.
    + destruct (requestAccounts w) as [[[|first others]|]|e]; run_eval;
        try reflexivity.
      destruct (newBrowserProvider w) as [p|e]; run_eval; try reflexivity.
      destruct (getAddress w first) as [a|e]; run_eval; try reflexivity.
      destruct (getNetwork w) as [n|e]; run_eval; reflexivity.
    + destruct (confirmAnswer w); reflexivity.
  - exact Hinit.
  - unfold onChainChanged. run_eval. exact Hinit.
  - unfold onAccountsChanged.
    destruct accs as [[|first others]|]; try reflexivity. run_eval.
    destruct (getAddress w first) as [a|e]; run_eval; [|reflexivity].
    destruct (newBrowserProvider w) as [p|e]; reflexivity.
  - destruct (switchNetwork_only_sets_error w hexChain addChainParams)
      as [_ [Ht | [msg Ht]]]; simpl; rewrite Ht; reflexivity.
Qed.

Section Executions.

Variable formatEther : N -> string.

Lemma unmount_last (rs : list EffectRun) :
  rs = [] \/ (exists older newest, rs = older ++ [newest] /\
                Forall (fun r => mounted r = false) older) ->
  Forall (fun r => mounted r = false) (alter unmount (pred (length rs)) rs).
Proof.
  intros [-> | (older & newest & -> & Hold)]; [constructor|].
  rewrite length_app. simpl length.
  replace (pred (length older + 1)) with (length older + 0)%nat by lia.
  rewrite alter_app_r. simpl. apply Forall_app_2; [exact Hold|].
  constructor; [reflexivity|constructor].
Qed.

Lemma loadBalanceStart_absent (s : Session) :
  depsPresent s = false -> loadBalanceStart s = ([SetBalance None], Ok None).
Proof.
  unfold depsPresent, loadBalanceStart.
  destruct (provider s), (address s) as [[|c a]|]; try discriminate; reflexivity.
Qed.

Lemma loadBalanceStart_present (s : Session) :
  depsPresent s = true ->
  exists p a, provider s = Some p /\ address s = Some a /\
              loadBalanceStart s = ([], Ok (Some (p, a))).
Proof.
  unfold depsPresent, loadBalanceStart.
  destruct (provider s) as [p|], (address s) as [[|c a]|]; try discriminate.
  intros _. eauto.
Qed.

Lemma depsPresent_no_address (s : Session) :
  address s = None -> depsPresent s = false.
Proof. unfold depsPresent. intros ->. destruct (provider s); reflexivity. Qed.

Lemma depsPresent_no_provider (s : Session) :
  provider s = None -> depsPresent s = false.
Proof. unfold depsPresent. intros ->. reflexivity. Qed.

Lemma depsPresent_deps (s1 s2 : Session) :
  deps s1 = deps s2 -> depsPresent s1 = depsPresent s2.
Proof.
  unfold deps, depsPresent. intros H. injection H as -> ->. reflexivity.
Qed.

Lemma balance_stays_absent (actions : list Action) (s : Session) :
  forallb (fun a => negb (writesBalanceValue a)) actions = true ->
  balance s = None -> balance (performAll actions s) = None.
Proof.
  revert s. induction actions as [|a actions IH]; intros s Hall Hb; [exact Hb|].
  simpl in Hall. apply andb_prop in Hall as [Ha Hall]. simpl.
  apply IH; [exact Hall|].
  destruct a as [| | |[v|]| | | | | |]; simpl in *; auto; discriminate.
Qed.

Lemma guarded_runEffect (s : Session) (rs : list EffectRun) :
  rs = [] \/ (exists older newest, rs = older ++ [newest] /\
                Forall (fun r => mounted r = false) older) ->
  guarded (runEffect s rs).
Proof.
  intros Hrs. pose proof (unmount_last rs Hrs) as Hall.
  unfold guarded, runEffect.
  destruct (depsPresent s) eqn:Hd.
  - destruct (loadBalanceStart_present s Hd) as (p & a & Hp & Ha & ->).
    eexists _, _. simpl. split; [reflexivity|]. split; [exact Hall|].
    unfold after. simpl. split; [auto|congruence].
  - rewrite (loadBalanceStart_absent s Hd).
    eexists _, _. simpl. split; [reflexivity|]. split; [exact Hall|].
    split; [discriminate|reflexivity].
Qed.

Lemma guarded_initial : guarded initialPage.
Proof. apply guarded_runEffect. left. reflexivity. Qed.

Lemma guarded_step (pg : Page) (ev : Event) :
  keepsBalanceToEffect ev = true -> guarded pg -> guarded (step formatEther pg ev).
Proof.
  intros Hev (older & newest & Hruns & Hold & Hq & Hb).
  destruct ev as [actions | i r].
  - simpl in Hev. simpl. destruct (decide _) as [Heq | Hne].
    + exists older, newest. simpl.
      rewrite (depsPresent_deps _ _ Heq).
      repeat split; auto. intros Hd. apply balance_stays_absent; auto.
    + apply guarded_runEffect. right. eauto.
  - destruct (decide (i = length older)) as [-> | Hne].
    + unfold step. rewrite Hruns, list_lookup_middle by reflexivity.
      destruct (query newest) as [q|] eqn:Hquery.
      * exists older, (settled newest). simpl.
        replace (length older) with (length older + 0)%nat by lia.
        rewrite insert_app_r. simpl.
        rewrite (depsPresent_deps _ _ (loadBalanceResume_deps formatEther _ r _)).
        rewrite (Hq q eq_refl).
        repeat split; auto; discriminate.
      * exists older, newest. rewrite Hquery. repeat split; auto; discriminate.
    + destruct (settle_quiet formatEther pg older newest i r Hruns Hold
                  (or_intror Hne))
        as (older' & Hruns' & Hold' & _ & Hs).
      exists older', newest. rewrite Hs. auto.
Qed.

Lemma guarded_steps (evs : list Event) (pg : Page) :
  forallb keepsBalanceToEffect evs = true ->
  guarded pg -> guarded (steps formatEther evs pg).
Proof.
  revert pg. induction evs as [|ev evs IH]; intros pg Hall H; simpl; [exact H|].
  simpl in Hall. apply andb_prop in Hall as [Hev Hall].
  apply IH; [exact Hall|]. apply guarded_step; assumption.
Qed.

End Executions.

(** X16. In every execution whose updates come from the operations of
    the component (no update writes a balance text), after each step the
    balance is absent whenever the provider or the address is absent (or
    the address is empty): the balance effect clears it at the render in
    which one of them disappears, and no later settlement brings a
    balance back. *)
Theorem balance_absent_without_deps (formatEther : N -> string)
    (history : list Event) :
  forallb keepsBalanceToEffect history = true ->
  depsPresent (session (steps formatEther history initialPage)) = false ->
  balance (session (steps formatEther history initialPage)) = None.
Proof.
  intros Hall Hd.
  destruct (guarded_steps formatEther history initialPage Hall guarded_initial)
    as (older & newest & _ & _ & _ & Hb).
  exact (Hb Hd).
Qed.

Lemma balance_absent_without_deps_witness :
  balance
    (session
       (steps sampleFormatEther
          [Update (trace (connect mainnetWorld));
           Settle 1 (Ok 1500000000000000000%N);
           Update (trace (initProvider noWalletWorld))]
          initialPage)) = None.
Proof.
  exact (balance_absent_without_deps sampleFormatEther
           [Update (trace (connect mainnetWorld));
            Settle 1 (Ok 1500000000000000000%N);
            Update (trace (initProvider noWalletWorld))]
           eq_refl eq_refl).
Defined.

(** X17. A disconnection is final with respect to the queries in
    flight: after an accounts-changed notification with an empty list (or
    no list), at any reachable page, the address, the signer and the
    balance are absent and stay absent however the open balance queries
    settle afterwards. *)
Theorem disconnect_final (formatEther : N -> string)
    (history later : list Event) (w : World) (accs : option (list string)) :
  accs = None \/ accs = Some [] ->
  forallb isSettle later = true ->
  let pg := steps formatEther history initialPage in
  let final :=
    steps formatEther later
      (step formatEther pg (Update (trace (onAccountsChanged w accs)))) in
  address (session final) = None /\ signer (session final) = None /\
  balance (session final) = None.
Proof.
  intros Haccs Hlater pg final.
  assert (Ht : trace (onAccountsChanged w accs) =
               [SetAddress None; SetSigner None; SetBalance None])
    by (destruct Haccs as [-> | ->]; reflexivity).
  assert (Hwf : wellFormed pg) by (apply wellFormed_steps, wellFormed_initial).
  destruct Hwf as (older & newest & Hruns & Hold & Hm & Hdeps).
  subst final. rewrite Ht. unfold step.
  set (s' := performAll [SetAddress None; SetSigner None; SetBalance None]
               (session pg)).
  destruct (decide (deps s' = deps (session pg))) as [Heq | Hne].
  - assert (Hq : query newest = None).
    { destruct (query newest) as [[p a]|] eqn:Hquery; [|reflexivity].
      destruct (Hdeps p a eq_refl) as [_ Ha].
      apply (f_equal snd) in Heq. simpl in Heq. congruence. }
    destruct (settles_quiet formatEther later (mkPage s' (runs pg)) older newest
                Hruns Hold Hlater (or_introl Hq)) as (_ & _ & _ & _ & ->).
    repeat split.
  - unfold runEffect.
    rewrite (loadBalanceStart_absent s')
      by (apply depsPresent_no_address; reflexivity).
    assert (Hall : Forall (fun r => mounted r = false)
                     (alter unmount (pred (length (runs pg))) (runs pg)))
      by (apply unmount_last; right; eauto).
    match goal with
    | |- context [steps formatEther later ?pg'] =>
        destruct (settles_quiet formatEther later pg' _ _ eq_refl Hall Hlater
                    (or_introl eq_refl)) as (_ & _ & _ & _ & ->)
    end.
    repeat split.
Qed.

Lemma disconnect_final_witness :
  let final :=
    steps sampleFormatEther [Settle 1 (Ok 1500000000000000000%N)]
      (step sampleFormatEther
         (steps sampleFormatEther [Update (trace (connect mainnetWorld))]
            initialPage)
         (Update (trace (onAccountsChanged mainnetWorld (Some []))))) in
  address (session final) = None /\ balance (session final) = None.
Proof.
  pose proof (disconnect_final sampleFormatEther
                [Update (trace (connect mainnetWorld))]
                [Settle 1 (Ok 1500000000000000000%N)] mainnetWorld (Some [])
                (or_intror eq_refl) eq_refl) as (Ha & _ & Hb).
  split; [exact Ha|exact Hb].
Defined.

Lemma chain_changed_provider (w : World) (hexChain : string) (p : Handle)
    (s : Session) :
  hasEthereum w = true -> newBrowserProvider w = Ok p ->
  provider (after (onChainChanged w hexChain) s) = Some p.
Proof.
  intros Hw Hp. unfold onChainChanged, initProvider. rewrite Hw. simpl negb.
  cbn iota. run_eval. rewrite Hp. run_eval.
  destruct (getNetwork w) as [n|e]; run_eval; [|destruct e; reflexivity].
  destruct (listAccounts w) as [[|first others]|e]; run_eval;
    [reflexivity| |destruct e; reflexivity].
  destruct (getAddress w first) as [a|e]; run_eval; [|destruct e]; reflexivity.
Qed.

(** X18. A chain change supersedes every balance query in flight: when
    the reconciliation run by the chain-changed handler constructs a
    provider object other than the one in the session, every run of the
    balance effect that existed before the notification is unmounted, so
    that the settlement of any of their queries leaves the session as it
    is. *)
Theorem chain_change_supersedes_queries (formatEther : N -> string)
    (history : list Event) (w : World) (hexChain : string) (p : Handle)
    (i : nat) (r : Result N) :
  let pg := steps formatEther history initialPage in
  let pg' := step formatEther pg (Update (trace (onChainChanged w hexChain))) in
  hasEthereum w = true ->
  newBrowserProvider w = Ok p ->
  provider (session pg) <> Some p ->
  (i < length (runs pg))%nat ->
  session (step formatEther pg' (Settle i r)) = session pg'.
Proof.
  intros pg pg' Hw Hp Hfresh Hi.
  assert (Hwf : wellFormed pg) by (apply wellFormed_steps, wellFormed_initial).
  destruct Hwf as (older & newest & Hruns & Hold & _ & _).
  assert (Hall : Forall (fun r => mounted r = false)
                   (alter unmount (pred (length (runs pg))) (runs pg)))
    by (apply unmount_last; right; eauto).
  assert (Hpg' : exists s' run,
             pg' = mkPage s' (alter unmount (pred (length (runs pg))) (runs pg)
                                ++ [run])).
  { unfold pg', step.
    destruct (decide _) as [Heq | Hne].
    - exfalso. apply (f_equal fst) in Heq. simpl in Heq.
      fold (after (onChainChanged w hexChain) (session pg)) in Heq.
      rename Heq into Hprov.
      rewrite (chain_changed_provider w hexChain p _ Hw Hp) in Hprov.
      congruence.
    - unfold runEffect. eauto. }
  destruct Hpg' as (s' & run & Hpg').
  destruct (settle_quiet formatEther pg' _ run i r
              ltac:(rewrite Hpg'; reflexivity) Hall) as (_ & _ & _ & _ & Hs).
  - right. rewrite length_alter. lia.
  - exact Hs.
Qed.

Lemma chain_change_supersedes_queries_witness :
  let pg := steps sampleFormatEther raceHistory initialPage in
  let pg' := step sampleFormatEther pg
               (Update (trace (onChainChanged
                                 (mkWorld true false (Ok None) (Ok 9%nat) S (Ok 5%N)
                                    (Ok [account2]) sampleGetAddress
                                    (fun _ => Ok tt) (fun _ => Ok tt)) "0x5"))) in
  session (step sampleFormatEther pg' (Settle 2 (Ok 2000000000000000000%N)))
    = session pg'.
Proof.
  exact (chain_change_supersedes_queries sampleFormatEther raceHistory
           (mkWorld true false (Ok None) (Ok 9%nat) S (Ok 5%N)
              (Ok [account2]) sampleGetAddress
              (fun _ => Ok tt) (fun _ => Ok tt)) "0x5" 9%nat 2
           (Ok 2000000000000000000%N) eq_refl eq_refl
           ltac:(discriminate) ltac:(vm_compute; lia)).
Defined.

(** X19. [connect] and the balance effect together: after a successful
    [connect] that stores a provider object other than the one in the
    session and a non-empty address, the page has a balance query in
    flight for that provider and that address, the balance shown
    meanwhile being the earlier one; once this query settles with an
    amount, the session holds the new address and the balance formatted
    from that amount. *)
Theorem connect_then_balance (formatEther : N -> string)
    (history : list Event) (w : World) (first : string)
    (others : list string) (p : Handle) (c : ascii) (a : string) (n bal : N) :
  let pg := steps formatEther history initialPage in
  let pg' := step formatEther pg (Update (trace (connect w))) in
  let final := step formatEther pg' (Settle (length (runs pg)) (Ok bal)) in
  hasEthereum w = true ->
  requestAccounts w = Ok (Some (first :: others)) ->
  newBrowserProvider w = Ok p ->
  getAddress w first = Ok (String c a) ->
  getNetwork w = Ok n ->
  provider (session pg) <> Some p ->
  runs pg' !! length (runs pg) = Some (mkEffectRun true (Some (p, String c a))) /\
  balance (session pg') = balance (session pg) /\
  address (session final) = Some (String c a) /\
  balance (session final) = Some (formatEther bal).
Proof.
  intros pg pg' final Hw Hreq Hp Ha Hn Hfresh.
  assert (Hs : performAll (trace (connect w)) (session pg) =
               mkSession (Some p) (Some (getSigner w p)) (Some (String c a))
                 (balance (session pg)) (Some (Js.Num (Z.of_N n)))
                 (Some (hexOfChain n)) None false).
  { unfold connect. rewrite Hw. simpl negb. cbn iota.
    run_eval. rewrite Hreq. run_eval. rewrite Hp. run_eval.
    rewrite Ha. run_eval. rewrite Hn. run_eval. reflexivity. }
  assert (Hpg' : pg' =
            mkPage (performAll (trace (connect w)) (session pg))
              (alter unmount (pred (length (runs pg))) (runs pg)
                 ++ [mkEffectRun true (Some (p, String c a))])).
  { unfold pg', step. destruct (decide _) as [Heq | Hne].
    - exfalso. apply (f_equal fst) in Heq. rewrite Hs in Heq. simpl in Heq.
      congruence.
    - unfold runEffect. rewrite Hs. reflexivity. }
  assert (Hlookup : runs pg' !! length (runs pg)
                    = Some (mkEffectRun true (Some (p, String c a)))).
  { rewrite Hpg'. simpl runs. apply list_lookup_middle.
    rewrite length_alter. reflexivity. }
  split; [exact Hlookup|].
  split; [rewrite Hpg', Hs; reflexivity|].
  unfold final, step. rewrite Hlookup. simpl.
  rewrite Hpg', Hs. split; reflexivity.
Qed.

Lemma connect_then_balance_witness :
  let pg' := step sampleFormatEther initialPage
               (Update (trace (connect mainnetWorld))) in
  let final := step sampleFormatEther pg' (Settle 1 (Ok 1500000000000000000%N)) in
  address (session final) = Some account1 /\
  balance (session final) = Some "1.5".
Proof.
  pose proof (connect_then_balance sampleFormatEther [] mainnetWorld account1 []
                7%nat "0" "x0000000000000000000000000000000000000001" 1%N
                1500000000000000000%N eq_refl eq_refl eq_refl eq_refl eq_refl
                ltac:(discriminate)) as (_ & _ & Ha & Hb).
  split; [exact Ha|exact Hb].
Defined.

(** X20. When the wallet has disappeared, the reconciliation on a page
    that holds a provider clears the provider and the signer and records
    the missing wallet in [error]; the balance effect then clears the
    balance, and no settlement brings it back; the address, however,
    stays in the session. *)
Theorem reconciliation_without_wallet (formatEther : N -> string)
    (history later : list Event) (w : World) (p : Handle) :
  let pg := steps formatEther history initialPage in
  let final :=
    steps formatEther later
      (step formatEther pg (Update (trace (initProvider w)))) in
  hasEthereum w = false ->
  provider (session pg) = Some p ->
  forallb isSettle later = true ->
  session final =
    mkSession None None (address (session pg)) None
      (chainId (session pg)) (chainHex (session pg))
      (Some "No injected wallet found (install MetaMask).")
      (connecting (session pg)).
Proof.
  intros pg final Hw Hp Hlater.
  assert (Hwf : wellFormed pg) by (apply wellFormed_steps, wellFormed_initial).
  destruct Hwf as (older & newest & Hruns & Hold & _ & _).
  assert (Hall : Forall (fun r => mounted r = false)
                   (alter unmount (pred (length (runs pg))) (runs pg)))
    by (apply unmount_last; right; eauto).
  assert (Ht : trace (initProvider w) =
               [SetError (Some "No injected wallet found (install MetaMask).");
                SetProvider None; SetSigner None])
    by (unfold initProvider; rewrite Hw; reflexivity).
  subst final. rewrite Ht. unfold step.
  destruct (decide _) as [Heq | Hne].
  - exfalso. apply (f_equal fst) in Heq. simpl in Heq. congruence.
  - unfold runEffect.
    rewrite loadBalanceStart_absent
      by (apply depsPresent_no_provider; reflexivity).
    match goal with
    | |- context [steps formatEther later ?pg'] =>
        destruct (settles_quiet formatEther later pg' _ _ eq_refl Hall Hlater
                    (or_introl eq_refl)) as (_ & _ & _ & _ & ->)
    end.
    reflexivity.
Qed.

Lemma reconciliation_without_wallet_witness :
  session
    (steps sampleFormatEther [Settle 1 (Ok 1500000000000000000%N)]
       (step sampleFormatEther
          (steps sampleFormatEther [Update (trace (connect mainnetWorld))]
             initialPage)
          (Update (trace (initProvider noWalletWorld))))) =
  mkSession None None (Some account1) None (Some (Js.Num 1)) (Some "0x1")
    (Some "No injected wallet found (install MetaMask).") false.
Proof.
  exact (reconciliation_without_wallet sampleFormatEther
           [Update (trace (connect mainnetWorld))]
           [Settle 1 (Ok 1500000000000000000%N)] noWalletWorld 7%nat
           eq_refl eq_refl eq_refl).
Defined.

(** X21. When the balance query of the newest run fails with a thrown
    value other than [undefined] and [null], the text of the failure is
    written to [error] and nothing else changes: the balance shown before
    stays. *)
Theorem balance_failure_recorded (formatEther : N -> string)
    (history : list Event) (p : Handle) (a : string)
    (code : option Z) (message : option string) (text : string) :
  let pg := steps formatEther history initialPage in
  let newest := pred (length (runs pg)) in
  query <$> runs pg !! newest = Some (Some (p, a)) ->
  session (step formatEther pg (Settle newest (Err (ThrownValue code message text))))
  = perform (session pg)
      (SetError (Some (describeSafe (ThrownValue code message text)))).
Proof.
  intros pg newest Hnewest.
  assert (Hwf : wellFormed pg) by (apply wellFormed_steps, wellFormed_initial).
  destruct Hwf as (older & run & Hruns & Hold & Hm & _).
  assert (Hidx : newest = length older).
  { unfold newest. rewrite Hruns, length_app. simpl. lia. }
  rewrite Hidx in *.
  rewrite Hruns, list_lookup_middle in Hnewest by reflexivity.
  simpl in Hnewest. injection Hnewest as Hq.
  unfold step. rewrite Hruns, list_lookup_middle by reflexivity.
  rewrite Hq, Hm. reflexivity.
Qed.

Lemma balance_failure_recorded_witness :
  session
    (step sampleFormatEther
       (steps sampleFormatEther
          [Update (trace (connect mainnetWorld));
           Settle 1 (Ok 1500000000000000000%N);
           Update [SetAddress (Some account2)]] initialPage)
       (Settle 2 (Err userRejected))) =
  mkSession (Some 7%nat) (Some 8%nat) (Some account2) (Some "1.5")
    (Some (Js.Num 1)) (Some "0x1") (Some "User rejected the request.") false.
Proof.
  exact (balance_failure_recorded sampleFormatEther
           [Update (trace (connect mainnetWorld));
            Settle 1 (Ok 1500000000000000000%N);
            Update [SetAddress (Some account2)]]
           7%nat account2 (Some 4001) (Some "User rejected the request.")
           "Error: User rejected the request." eq_refl).
Defined.

(** ** Texts *)

Lemma append_cons (c : ascii) (s t : string) :
  String.append (String c s) t = String c (String.append s t).
Proof. reflexivity. Qed.

Lemma length_append (s t : string) :
  String.length (String.append s t) = (String.length s + String.length t)%nat.
Proof.
  induction s as [|c s IH]; [reflexivity|].
  rewrite append_cons. simpl. rewrite IH. reflexivity.
Qed.

Lemma append_assoc (s t u : string) :
  String.append (String.append s t) u = String.append s (String.append t u).
Proof.
  induction s as [|c s IH]; [reflexivity|].
  rewrite !append_cons, IH. reflexivity.
Qed.

Lemma substring_all (s : string) : substring 0 (String.length s) s = s.
Proof. induction s as [|c s IH]; simpl; [reflexivity|]. rewrite IH. reflexivity. Qed.

Lemma substring_head (s t : string) :
  substring 0 (String.length s) (String.append s t) = s.
Proof.
  induction s as [|c s IH]; [destruct t; reflexivity|].
  rewrite append_cons. simpl. rewrite IH. reflexivity.
Qed.

Lemma substring_skip (s t : string) (n m : nat) :
  substring (String.length s + n) m (String.append s t) = substring n m t.
Proof.
  induction s as [|c s IH]; [reflexivity|].
  rewrite append_cons. simpl. exact IH.
Qed.

Lemma length_substring (s : string) (n m : nat) :
  (n + m <= String.length s)%nat -> String.length (substring n m s) = m.
Proof.
  revert n m. induction s as [|c s IH]; intros n m H; simpl in H.
  - assert (n = 0%nat) as -> by lia. assert (m = 0%nat) as -> by lia. reflexivity.
  - destruct n as [|n]; simpl.
    + destruct m as [|m]; simpl; [reflexivity|]. rewrite (IH 0%nat m) by lia.
      reflexivity.
    + apply IH. lia.
Qed.

(** ** The address label *)

(** X22. For a text of at least ten characters, such as an address,
    [short] keeps the first six characters and the last four and replaces
    what lies between them by three dots: the label has thirteen
    characters. *)
Theorem short_elides_middle (head middle tail : string) :
  String.length head = 6%nat ->
  String.length tail = 4%nat ->
  short (String.append head (String.append middle tail))
    = String.append head (String.append "..." tail) /\
  String.length (short (String.append head (String.append middle tail))) = 13%nat.
Proof.
  intros Hh Ht.
  assert (Hs : short (String.append head (String.append middle tail))
               = String.append head (String.append "..." tail)).
  { unfold short.
    destruct (String.append head (String.append middle tail)) as [|c rest] eqn:Hfull.
    - apply (f_equal String.length) in Hfull. rewrite length_append in Hfull.
      simpl in Hfull. lia.
    - rewrite <- Hfull. f_equal.
      + rewrite <- Hh. apply substring_head.
      + f_equal. rewrite <- append_assoc.
        rewrite length_append, Ht.
        replace (String.length (String.append head middle) + 4 - 4)%nat
          with (String.length (String.append head middle) + 0)%nat by lia.
        rewrite substring_skip. rewrite <- Ht. apply substring_all. }
  split; [exact Hs|].
  rewrite Hs, !length_append, Hh, Ht. reflexivity.
Qed.

Lemma short_elides_middle_witness :
  short account1 = "0x0000...0001".
Proof.
  exact (proj1 (short_elides_middle "0x0000" "00000000000000000000000000000000"
                  "0001" eq_refl eq_refl)).
Defined.

(** ** The shape of a formatted number *)

Lemma matchesHere_not_dot (c : ascii) (r : string) :
  notDot c = true ->
  Display.matchesHere (String c r) = Ascii.eqb c "0" && Display.allZeros r.
Proof.
  destruct c as [[] [] [] [] [] [] [] []]; try reflexivity; discriminate.
Qed.

Lemma zerosToEnd_allZeros (c : ascii) (r : string) :
  Display.zerosToEnd (String c r) = Display.allZeros (String c r).
Proof. destruct c as [[] [] [] [] [] [] [] []]; reflexivity. Qed.

Lemma digit_notDot (c : ascii) : Js.isDecimalDigit c = true -> notDot c = true.
Proof. destruct c as [[] [] [] [] [] [] [] []]; try reflexivity; discriminate. Qed.

Lemma allChars_impl (P Q : ascii -> bool) (s : string) :
  (forall c, P c = true -> Q c = true) ->
  allChars P s = true -> allChars Q s = true.
Proof.
  intros HPQ. induction s as [|c s IH]; simpl; [reflexivity|].
  intros H. apply andb_prop in H as [Hc Hs]. rewrite (HPQ c Hc), (IH Hs). reflexivity.
Qed.

Lemma allChars_append (P : ascii -> bool) (s t : string) :
  allChars P (String.append s t) = allChars P s && allChars P t.
Proof.
  induction s as [|c s IH]; [reflexivity|].
  rewrite append_cons. simpl. rewrite IH, andb_assoc. reflexivity.
Qed.

Lemma allChars_substring (P : ascii -> bool) (s : string) (n m : nat) :
  allChars P s = true -> allChars P (substring n m s) = true.
Proof.
  revert n m. induction s as [|c s IH]; intros n m H.
  - destruct n, m; reflexivity.
  - simpl in H. apply andb_prop in H as [Hc Hs].
    destruct n as [|n]; simpl; [|apply IH, Hs].
    destruct m as [|m]; simpl; [reflexivity|]. rewrite Hc, (IH 0%nat m Hs). reflexivity.
Qed.

Lemma allChars_zeros (k : nat) : allChars Js.isDecimalDigit (Display.zeros k) = true.
Proof. induction k as [|k IH]; simpl; [reflexivity|exact IH]. Qed.

Lemma length_zeros (k : nat) : String.length (Display.zeros k) = k.
Proof. induction k as [|k IH]; simpl; [reflexivity|]. rewrite IH. reflexivity. Qed.

Lemma allZeros_of_zeros (k : nat) : Display.allZeros (Display.zeros k) = true.
Proof. induction k as [|k IH]; simpl; [reflexivity|exact IH]. Qed.

Lemma allZeros_is_zeros (s : string) :
  Display.allZeros s = true -> s = Display.zeros (String.length s).
Proof.
  induction s as [|c s IH]; simpl; [reflexivity|].
  intros H. apply andb_prop in H as [Hc Hs].
  apply Ascii.eqb_eq in Hc. subst c. rewrite <- (IH Hs). reflexivity.
Qed.

Lemma allZeros_append_dot (x y : string) :
  Display.allZeros (String.append x (String "." y)) = false.
Proof.
  induction x as [|c x IH]; [reflexivity|].
  rewrite append_cons. simpl. rewrite IH. apply andb_false_r.
Qed.

Lemma decimalText_digits (n : N) :
  allChars Js.isDecimalDigit (Display.decimalText n) = true.
Proof.
  unfold Display.decimalText.
  assert (H : forall d, allChars Js.isDecimalDigit (NilEmpty.string_of_uint d) = true)
    by (induction d; simpl; auto).
  destruct (N.to_uint n) as [|d|d|d|d|d|d|d|d|d|d] eqn:Hd;
    [reflexivity|..]; apply H.
Qed.

(** The removal leaves what stands before the dot. *)
Lemma trimZeros_whole (whole rest : string) :
  allChars notDot whole = true ->
  Display.trimZeros (String.append whole (String "." rest)) =
  String.append whole (Display.trimZeros (String "." rest)).
Proof.
  induction whole as [|c whole IH]; intros H; [reflexivity|].
  simpl in H. apply andb_prop in H as [Hc Hw].
  rewrite !append_cons.
  change (Display.trimZeros (String c (String.append whole (String "." rest))))
    with (if Display.matchesHere (String c (String.append whole (String "." rest)))
          then EmptyString
          else String c (Display.trimZeros (String.append whole (String "." rest)))).
  rewrite (matchesHere_not_dot c _ Hc), allZeros_append_dot, andb_false_r.
  rewrite (IH Hw). reflexivity.
Qed.

(** On a text of digits, the removal takes the final zeros and nothing
    else. *)
Lemma trimZeros_digits (frac : string) :
  allChars notDot frac = true ->
  exists kept k,
    frac = String.append kept (Display.zeros k) /\
    Display.trimZeros frac = kept /\
    (forall kept', kept <> String.append kept' "0").
Proof.
  induction frac as [|c frac IH]; intros H.
  - exists EmptyString, 0%nat. repeat split. intros [|c' k']; discriminate.
  - simpl in H. apply andb_prop in H as [Hc Hf].
    change (Display.trimZeros (String c frac))
      with (if Display.matchesHere (String c frac) then EmptyString
            else String c (Display.trimZeros frac)).
    rewrite (matchesHere_not_dot c frac Hc).
    destruct (Ascii.eqb c "0" && Display.allZeros frac) eqn:Hz.
    + apply andb_prop in Hz as [Hc0 Hz]. apply Ascii.eqb_eq in Hc0. subst c.
      exists EmptyString, (S (String.length frac)). repeat split.
      * simpl. rewrite <- (allZeros_is_zeros frac Hz). reflexivity.
      * intros [|c' k']; discriminate.
    + destruct (IH Hf) as (kept & k & Hfrac & Htrim & Hlast).
      exists (String c kept), k. rewrite Htrim. repeat split.
      * rewrite append_cons, <- Hfrac. reflexivity.
      * intros [|c' kept'] Heq.
        -- injection Heq as -> ->.
           rewrite Hfrac in Hz.
           change (String.append EmptyString (Display.zeros k))
             with (Display.zeros k) in Hz.
           simpl in Hz. rewrite allZeros_of_zeros in Hz. discriminate.
        -- rewrite append_cons in Heq. injection Heq as _ Heq.
           exact (Hlast kept' Heq).
Qed.

(** The text of [toFixed(6)]: a part without dot, a dot, six digits. *)
Lemma toFixed6_parts (d : Display.Decimal) (t : string) :
  Display.toFixed6 d = Some t ->
  exists whole frac,
    t = String.append whole (String "." frac) /\
    String.length frac = 6%nat /\
    allChars notDot whole = true /\ allChars notDot frac = true.
Proof.
  unfold Display.toFixed6, Display.toFixed6OfDouble.
  set (x := Display.nearestDouble d).
  destruct (_ <=? _); [discriminate|].
  set (n := Z.to_N _).
  set (m := String.append (Display.zeros (7 - String.length (Display.decimalText n)))
              (Display.decimalText n)).
  intros H. injection H as <-.
  assert (Hlen : (7 <= String.length m)%nat).
  { unfold m. rewrite length_append, length_zeros. lia. }
  assert (Hdigits : allChars notDot m = true).
  { apply (allChars_impl Js.isDecimalDigit); [exact digit_notDot|].
    unfold m. rewrite allChars_append, allChars_zeros, decimalText_digits.
    reflexivity. }
  exists (String.append
            (if Display.negativeSign x && negb (Display.significand x =? 0)
             then "-" else EmptyString)
            (substring 0 (String.length m - 6) m)),
         (substring (String.length m - 6) 6 m).
  split; [symmetry; apply append_assoc|].
  split; [apply length_substring; lia|].
  split; [|apply allChars_substring, Hdigits].
  rewrite allChars_append, (allChars_substring _ _ _ _ Hdigits).
  destruct (Display.negativeSign x && negb (Display.significand x =? 0)); reflexivity.
Qed.

Lemma append_empty_r (s : string) : String.append s EmptyString = s.
Proof.
  induction s as [|c s IH]; [reflexivity|]. rewrite append_cons, IH. reflexivity.
Qed.

(** X23. For a balance text in plain decimal notation whose Number is
    below 10^21, [formatNumber] returns the text of [toFixed(6)], taken
    on the nearest double, with the zeros that end its six decimals
    removed, and the dot with them when no decimal is left: what stands
    before the dot is returned as it is, so that the zeros of a whole
    number are never taken. *)
Theorem formatNumber_shape (n : string) (d : Display.Decimal) (t : string) :
  Display.numberOf n = Some (Display.ParsedDecimal d) ->
  Display.toFixed6 d = Some t ->
  exists whole kept k,
    t = String.append whole (String "." (String.append kept (Display.zeros k))) /\
    (String.length kept + k = 6)%nat /\
    (forall kept', kept <> String.append kept' "0") /\
    Display.formatNumber n =
      Some (match kept with
            | EmptyString => whole
            | _ => String.append whole (String "." kept)
            end).
Proof.
  intros Hn Ht.
  destruct (toFixed6_parts d t Ht) as (whole & frac & -> & Hlen & Hw & Hf).
  unfold Display.formatNumber. rewrite Hn, Ht. simpl fmap.
  rewrite (trimZeros_whole whole frac Hw).
  destruct frac as [|c frac]; [discriminate|].
  change (Display.trimZeros (String "." (String c frac)))
    with (if Display.zerosToEnd (String c frac) then EmptyString
          else String "." (Display.trimZeros (String c frac))).
  rewrite zerosToEnd_allZeros.
  destruct (Display.allZeros (String c frac)) eqn:Hz.
  - exists whole, EmptyString, 6%nat.
    rewrite (allZeros_is_zeros _ Hz), Hlen, append_empty_r.
    repeat split. intros [|c' k']; discriminate.
  - destruct (trimZeros_digits (String c frac) Hf) as (kept & k & Hfrac & Htrim & Hlast).
    exists whole, kept, k. rewrite Htrim, Hfrac. repeat split; [|exact Hlast|].
    + rewrite <- Hlen, Hfrac, length_append, length_zeros. reflexivity.
    + destruct kept as [|c' kept']; [|reflexivity].
      rewrite Hfrac in Hz.
      change (String.append EmptyString (Display.zeros k))
        with (Display.zeros k) in Hz.
      rewrite allZeros_of_zeros in Hz. discriminate.
Qed.

Lemma formatNumber_shape_witness :
  exists whole kept k,
    "100.250000" =
      String.append whole (String "." (String.append kept (Display.zeros k))) /\
    (String.length kept + k = 6)%nat /\
    (forall kept', kept <> String.append kept' "0") /\
    Display.formatNumber "100.250" =
      Some (match kept with
            | EmptyString => whole
            | _ => String.append whole (String "." kept)
            end).
Proof.
  exact (formatNumber_shape "100.250" (Display.mkDecimal false 100250 3)
           "100.250000" eq_refl eq_refl).
Defined.

(** ** Which operations refresh the balance *)

(** X24. A call of [switchNetwork] by itself never refreshes the
    balance: committed at any page, its setter calls start no query and
    unmount no run of the balance effect, and the balance stays. *)
Theorem switchNetwork_starts_no_query (formatEther : N -> string) (pg : Page)
    (w : World) (hexChainId : string) (addChainParams : option AddChainParams) :
  let pg' :=
    step formatEther pg
      (Update (trace (switchNetwork w hexChainId addChainParams))) in
  runs pg' = runs pg /\ balance (session pg') = balance (session pg).
Proof.
  intros pg'. subst pg'. unfold step.
  destruct (switchNetwork_only_sets_error w hexChainId addChainParams)
    as [_ [-> | [msg ->]]]; simpl;
    (destruct (decide _) as [_ | Hne];
       [split; reflexivity|exfalso; apply Hne; reflexivity]).
Qed.

(** X25. After an accounts-changed notification that selects an
    address other than the one shown, on a page that holds a provider,
    the balance effect issues its query for the new address with the
    provider stored in the session: the provider constructed by the
    handler serves for the signer only. *)
Theorem accounts_changed_requeries_with_stored_provider
    (formatEther : N -> string) (history : list Event) (w : World)
    (first : string) (others : list string) (c : ascii) (a : string)
    (p p0 : Handle) :
  let pg := steps formatEther history initialPage in
  let pg' :=
    step formatEther pg
      (Update (trace (onAccountsChanged w (Some (first :: others))))) in
  getAddress w first = Ok (String c a) ->
  newBrowserProvider w = Ok p ->
  provider (session pg) = Some p0 ->
  address (session pg) <> Some (String c a) ->
  runs pg' !! length (runs pg) = Some (mkEffectRun true (Some (p0, String c a))) /\
  signer (session pg') = Some (getSigner w p) /\
  provider (session pg') = Some p0.
Proof.
  intros pg pg' Ha Hp Hp0 Hnew.
  assert (Hs : performAll (trace (onAccountsChanged w (Some (first :: others))))
                 (session pg) =
               mkSession (Some p0) (Some (getSigner w p)) (Some (String c a))
                 (balance (session pg)) (chainId (session pg))
                 (chainHex (session pg)) (error (session pg))
                 (connecting (session pg))).
  { unfold onAccountsChanged. run_eval. rewrite Ha. run_eval. rewrite Hp.
    run_eval. simpl. rewrite Hp0. reflexivity. }
  assert (Hpg' : pg' =
            mkPage (performAll (trace (onAccountsChanged w (Some (first :: others))))
                      (session pg))
              (alter unmount (pred (length (runs pg))) (runs pg)
                 ++ [mkEffectRun true (Some (p0, String c a))])).
  { unfold pg', step. destruct (decide _) as [Heq | Hne].
    - exfalso. apply (f_equal snd) in Heq. rewrite Hs in Heq. simpl in Heq.
      congruence.
    - unfold runEffect. rewrite Hs. reflexivity. }
  rewrite Hpg'. cbn [runs session]. rewrite Hs. cbn [signer provider].
  split; [|split; reflexivity].
  apply list_lookup_middle. rewrite length_alter. reflexivity.
Qed.

Lemma accounts_changed_requeries_with_stored_provider_witness :
  let pg := steps sampleFormatEther [Update (trace (connect mainnetWorld))]
              initialPage in
  let w := mkWorld true false (Ok None) (Ok 9%nat) S (Ok 1%N) (Ok [])
             sampleGetAddress (fun _ => Ok tt) (fun _ => Ok tt) in
  let pg' := step sampleFormatEther pg
               (Update (trace (onAccountsChanged w (Some [account2])))) in
  runs pg' !! 2%nat = Some (mkEffectRun true (Some (7%nat, account2))) /\
  signer (session pg') = Some 10%nat /\
  provider (session pg') = Some 7%nat.
Proof.
  exact (accounts_changed_requeries_with_stored_provider sampleFormatEther
           [Update (trace (connect mainnetWorld))]
           (mkWorld true false (Ok None) (Ok 9%nat) S (Ok 1%N) (Ok [])
              sampleGetAddress (fun _ => Ok tt) (fun _ => Ok tt))
           account2 [] "0" "x0000000000000000000000000000000000000002"
           9%nat 7%nat eq_refl eq_refl eq_refl ltac:(discriminate)).
Defined.
